(** * Verification of [apps/taskflow/experiments/visualize.py]

    The script renders seven figures from three literal tables with
    matplotlib and saves each one as a PNG and a PDF file below
    [figures/].  The development embeds

    - the module-level tables ([COLORS], [OVERALL_DATA], [CATEGORY_DATA],
      [OUTPUT_DIR]) as a record of module globals, read by every function
      at call time as Python does;
    - Python floats as binary64 primitive floats, Python ints as [Z], and
      the three format specifications the script uses ([.1f], [.4f], [,]);
    - the part of pyplot and of [os] that the script calls, as a state and
      exception monad over a world made of a file system, the console and
      pyplot's stack of open figures;
    - the seven figure builders and [main], statement by statement.

    matplotlib and [os] are not part of the repository: their behaviour is
    modelled here from their documentation, only as far as the script uses
    them. *)

From Stdlib Require Import ZArith NArith Ascii String List Bool Lia.
From Stdlib Require Import DecimalString.
From Stdlib Require Import Floats.PrimFloat Floats.FloatOps Floats.SpecFloat.
From Stdlib Require Import Uint63.
From Stdlib Require Import Sorting.Sorted.
From stdpp Require Import base option list gmap strings.
Import ListNotations.

Open Scope string_scope.
Set Warnings "-inexact-float,-register-all,-clear-no-such-hyp".

(** ** Python numbers and format specifications *)

Module PyFormat.

(** [float(z)] for an int of magnitude below [2^53] (exact there). *)
Definition float_of_Z (z : Z) : float :=
  if (z <? 0)%Z
  then PrimFloat.opp (PrimFloat.of_uint63 (Uint63.of_Z (- z)))
  else PrimFloat.of_uint63 (Uint63.of_Z z).

(** Nearest integer to [num / den], ties to the even one ([0 <= num],
    [0 < den]): the rounding of Python's float formatting. *)
Definition round_half_even (num den : Z) : Z :=
  let q := (num / den)%Z in
  let r := (num mod den)%Z in
  match (2 * r ?= den)%Z with
  | Lt => q
  | Gt => (q + 1)%Z
  | Eq => if Z.even q then q else (q + 1)%Z
  end.

Definition digits (n : Z) : string := NilZero.string_of_uint (N.to_uint (Z.to_N n)).

Fixpoint zeros (k : nat) : string :=
  match k with O => "" | S k' => String "0" (zeros k') end.

(** The non-negative integer [n] read as the decimal [n / 10^prec], with
    exactly [prec] digits after the point and at least one before it. *)
Definition fixed_point (prec : nat) (n : Z) : string :=
  let ds := digits n in
  let ds := zeros (S prec - String.length ds) ++ ds in
  let k := (String.length ds - prec)%nat in
  if Nat.eqb prec 0 then ds
  else substring 0 k ds ++ "." ++ substring k prec ds.

Definition sign_prefix (s : bool) : string := if s then "-" else "".

(** [format(x, '.<prec>f')]: the exact binary value of [x], correctly
    rounded (half to even) to [prec] decimals. *)
Definition format_f (prec : nat) (x : float) : string :=
  match Prim2SF x with
  | S754_nan => "nan"
  | S754_infinity s => sign_prefix s ++ "inf"
  | S754_zero s => sign_prefix s ++ fixed_point prec 0
  | S754_finite s m e =>
      let scale := (10 ^ Z.of_nat prec)%Z in
      let n :=
        if (0 <=? e)%Z then (Z.pos m * 2 ^ e * scale)%Z
        else round_half_even (Z.pos m * scale) (2 ^ (- e)) in
      sign_prefix s ++ fixed_point prec n
  end.

(** Digits of a number written backwards, a comma after every third. *)
Fixpoint commas_rev (l : list ascii) (k : nat) : list ascii :=
  match l with
  | [] => []
  | c :: l' =>
      match k with
      | 3%nat => ","%char :: c :: commas_rev l' 1
      | _ => c :: commas_rev l' (S k)
      end
  end.

(** [format(z, ',')] for an int. *)
Definition format_comma (z : Z) : string :=
  let ds := list_ascii_of_string (digits (Z.abs z)) in
  sign_prefix (z <? 0)%Z
    ++ string_of_list_ascii (rev (commas_rev (rev ds) 0)).

(** [str(z)] for an int. *)
Definition str_int (z : Z) : string := NilZero.string_of_int (Z.to_int z).

Definition lower_ascii (c : ascii) : ascii :=
  let n := nat_of_ascii c in
  if (65 <=? n)%nat && (n <=? 90)%nat then ascii_of_nat (n + 32) else c.

(** [s.lower()] on ASCII text. *)
Fixpoint lower (s : string) : string :=
  match s with
  | EmptyString => EmptyString
  | String c s' => String (lower_ascii c) (lower s')
  end.

End PyFormat.
Import PyFormat.

(** ** Python values, exceptions and the module's globals *)

(** Values passed as literal arguments to matplotlib. *)
Inductive pyval :=
| VNone
| VBool (b : bool)
| VInt (z : Z)
| VFloat (f : float)
| VStr (s : string)
| VTuple (l : list pyval)
| VDict (d : list (string * pyval)).

(** Keyword arguments of a call, in the order written. *)
Definition kwargs := list (string * pyval).

Inductive exn :=
| KeyError (key : string)
| IndexError
| ValueError (msg : string)
| RuntimeError (msg : string)
| FileExistsError (path : string)
| FileNotFoundError (path : string)
| NotADirectoryError (path : string)
| IsADirectoryError (path : string)
| PermissionError (path : string).

(** The subclasses of [OSError] (Python 3's [IOError]). *)
Definition is_OSError (e : exn) : bool :=
  match e with
  | FileExistsError _ | FileNotFoundError _ | NotADirectoryError _
  | IsADirectoryError _ | PermissionError _ => true
  | _ => false
  end.

(** One row of [OVERALL_DATA]: a dict literal with these five keys. *)
Record MetricRow := {
  calls : float;
  tokens : Z;
  cost : float;
  latency : float;
  success : Z;
}.

(** The module namespace.  A dict is a list of items in insertion order
    (keys distinct), which is the order [keys()] iterates in. *)
Record Globals := {
  COLORS : list (string * string);
  OVERALL_DATA : list (string * MetricRow);
  CATEGORY_DATA : list (string * list (string * float));
  OUTPUT_DIR : string;
}.

Definition keys {V : Type} (d : list (string * V)) : list string := map fst d.

Fixpoint dict_get {V : Type} (d : list (string * V)) (k : string) : option V :=
  match d with
  | [] => None
  | (k', v) :: d' => if String.eqb k' k then Some v else dict_get d' k
  end.

(** ** Figures as matplotlib builds them *)

(** A bar of a bar chart: left edge, size and style. *)
Record Rectangle := {
  rect_x : float;
  rect_width : float;
  rect_height : float;
  rect_facecolor : string;
  rect_edgecolor : string;
  rect_linewidth : float;
}.

Record Line2D := {
  line_xdata : list float;
  line_ydata : list float;
  line_marker : string;
  line_color : string;
  line_label : string;
  line_linewidth : float;
  line_markersize : float;
  line_linestyle : string;
}.

(** A table: its text, and the style calls made on it and on its cells
    (cell [(0, j)] is the header, cell [(i+1, j)] is [cellText[i][j]]). *)
Record Table := {
  tab_cellText : list (list string);
  tab_colLabels : list string;
  tab_kw : kwargs;
  tab_calls : list (string * pyval);
  tab_cell_calls : list ((nat * nat) * (string * pyval));
}.

Inductive Artist :=
| ABars (label : option string) (patches : list Rectangle)
| ALine (l : Line2D)
| AAnnotation (text : string) (xy : pyval) (kw : kwargs)
| AText (x y : pyval) (text : string) (kw : kwargs)
| AHLine (kw : kwargs)
| AFillBetween (x y1 y2 : list pyval) (kw : kwargs)
| AFancyBboxPatch (xy : float * float) (width height : float) (kw : kwargs)
| ATable (t : Table).

(** An axes: the artists in the order added; the categories of a
    categorical x axis (category [i] sits at position [i] and labels the
    tick there); the ticks set by hand; and the remaining setter calls in
    the order made. *)
Record Axes := {
  ax_artists : list Artist;
  ax_xcategories : list string;
  ax_xticks : list float;
  ax_xticklabels : list string;
  ax_calls : list (string * pyval);
}.

Record Figure := {
  fig_kw : kwargs;
  fig_axes : list Axes;
  fig_calls : list string;
}.

(** ** The world: file system, console, pyplot *)

Inductive Format := PNG | PDF.

(** PNG is a raster format, PDF a vector format. *)
Definition is_raster (f : Format) : bool :=
  match f with PNG => true | PDF => false end.

(** What a file holds: a figure saved in some format under the rc
    parameters in force, or anything else. *)
Inductive FileData :=
| Image (fmt : Format) (rc : kwargs) (styles : list string) (fig : Figure)
| Blob (bytes : string).

(** Paths are relative to the working directory, with [/] between
    components; the empty path stands for the working directory itself.
    [fs_denied] holds the paths that may not be created or written. *)
Record FileSystem := {
  fs_dirs : gset string;
  fs_files : gmap string FileData;
  fs_denied : gset string;
}.

Record World := {
  fs : FileSystem;
  console : list string;
  plt_figs : list Figure;
  rc_styles : list string;
  rcParams : kwargs;
}.

Inductive Result (A : Type) :=
| Ok (a : A) (w : World)
| Raise (e : exn) (w : World).
Arguments Ok {A} a w.
Arguments Raise {A} e w.

(** A Python statement or expression: it runs in a world and either
    returns a value or raises, leaving a world behind in both cases. *)
Definition M (A : Type) : Type := World -> Result A.

#[global] Instance M_ret : MRet M := fun A a w => Ok a w.

#[global] Instance M_bind : MBind M := fun A B f m w =>
  match m w with
  | Ok a w' => f a w'
  | Raise e w' => Raise e w'
  end.

Definition raise {A : Type} (e : exn) : M A := fun w => Raise e w.

(** [try: m  except <handles>: pass] *)
Definition try_pass (handles : exn -> bool) (m : M unit) : M unit := fun w =>
  match m w with
  | Ok a w' => Ok a w'
  | Raise e w' => if handles e then Ok tt w' else Raise e w'
  end.

Definition run_option {A : Type} (e : exn) (o : option A) : M A :=
  match o with Some a => mret a | None => raise e end.

(** [d[k]] *)
Definition getitem {V : Type} (d : list (string * V)) (k : string) : M V :=
  run_option (KeyError k) (dict_get d k).

(** [l[i]] *)
Definition getindex {A : Type} (l : list A) (i : nat) : M A :=
  run_option IndexError (l !! i).

(** [for x in l: body x] *)
Fixpoint for_each {A : Type} (l : list A) (body : A -> M unit) : M unit :=
  match l with
  | [] => mret tt
  | x :: l' => body x ;; for_each l' body
  end.

(** [[f x for x in l]] *)
Fixpoint comprehension {A B : Type} (l : list A) (f : A -> M B) : M (list B) :=
  match l with
  | [] => mret []
  | x :: l' => y ← f x; ys ← comprehension l' f; mret (y :: ys)
  end.

(** [print(line)] *)
Definition print (line : string) : M unit := fun w =>
  Ok tt {| fs := fs w; console := console w ++ [line]; plt_figs := plt_figs w;
           rc_styles := rc_styles w; rcParams := rcParams w |}.

Definition set_fs (s : FileSystem) (w : World) : World :=
  {| fs := s; console := console w; plt_figs := plt_figs w;
     rc_styles := rc_styles w; rcParams := rcParams w |}.

Definition set_figs (figs : list Figure) (w : World) : World :=
  {| fs := fs w; console := console w; plt_figs := figs;
     rc_styles := rc_styles w; rcParams := rcParams w |}.

(** ** The calls into [os] *)

Module os.

(** [os.path.split]: the path before and after its last [/]. *)
Fixpoint split_last (p : string) : option (string * string) :=
  match p with
  | EmptyString => None
  | String c p' =>
      match split_last p' with
      | Some (h, t) => Some (String c h, t)
      | None => if Ascii.eqb c "/" then Some (EmptyString, p') else None
      end
  end.

Definition split (p : string) : string * string :=
  match split_last p with Some ht => ht | None => ("", p) end.

Definition dirname (p : string) : string := fst (split p).

Definition isdir (s : FileSystem) (p : string) : bool :=
  negb (String.eqb p "") && bool_decide (p ∈ fs_dirs s).

Definition isfile (s : FileSystem) (p : string) : bool :=
  bool_decide (is_Some (fs_files s !! p)).

Definition path_exists (s : FileSystem) (p : string) : bool :=
  isdir s p || isfile s p.

(** Why the directory that should hold [p] cannot be entered, if so. *)
Definition parent_error (s : FileSystem) (p : string) : option exn :=
  let h := dirname p in
  if String.eqb h "" || isdir s h then None
  else if isfile s h then Some (NotADirectoryError p)
  else Some (FileNotFoundError p).

(** [os.mkdir(p)] *)
Definition mkdir (p : string) (s : FileSystem) : FileSystem + exn :=
  if String.eqb p "" then inr (FileNotFoundError p)
  else match parent_error s p with
  | Some e => inr e
  | None =>
      if path_exists s p then inr (FileExistsError p)
      else if bool_decide (p ∈ fs_denied s) then inr (PermissionError p)
      else inl {| fs_dirs := {[ p ]} ∪ fs_dirs s; fs_files := fs_files s;
                  fs_denied := fs_denied s |}
  end.

(** [open(p, 'wb')], writing [data] and closing: the file is created, or
    replaced if it was there. *)
Definition write_file (p : string) (data : FileData) (s : FileSystem)
  : FileSystem + exn :=
  if String.eqb p "" then inr (FileNotFoundError p)
  else match parent_error s p with
  | Some e => inr e
  | None =>
      if isdir s p then inr (IsADirectoryError p)
      else if bool_decide (p ∈ fs_denied s) then inr (PermissionError p)
      else inl {| fs_dirs := fs_dirs s; fs_files := <[ p := data ]> (fs_files s);
                  fs_denied := fs_denied s |}
  end.

Definition lift (f : FileSystem -> FileSystem + exn) : M unit := fun w =>
  match f (fs w) with
  | inl s' => Ok tt (set_fs s' w)
  | inr e => Raise e w
  end.

(** [os.makedirs(name, exist_ok=exist_ok)], as the library writes it:

      head, tail = path.split(name)
      if not tail: head, tail = path.split(head)
      if head and tail and not path.exists(head):
          try: makedirs(head, exist_ok=exist_ok)
          except FileExistsError: pass
      try: mkdir(name, mode)
      except OSError:
          if not exist_ok or not path.isdir(name): raise

    The recursion is on a strictly shorter path; [fuel] bounds it. *)
Fixpoint makedirs_fuel (fuel : nat) (name : string) (exist_ok : bool) : M unit :=
  let '(head, tail) := split name in
  let '(head, tail) := if String.eqb tail "" then split head else (head, tail) in
  let parents : M unit := fun w =>
    if negb (String.eqb head "") && negb (String.eqb tail "")
       && negb (path_exists (fs w) head)
    then match fuel with
         | O => Ok tt w
         | S fuel' =>
             try_pass (fun e => match e with FileExistsError _ => true | _ => false end)
                      (makedirs_fuel fuel' head exist_ok) w
         end
    else Ok tt w in
  let leaf : M unit := fun w =>
    match lift (mkdir name) w with
    | Ok a w' => Ok a w'
    | Raise e w' =>
        if is_OSError e && (negb exist_ok || negb (isdir (fs w') name))
        then Raise e w' else Ok tt w'
    end in
  parents ;; leaf.

Definition makedirs (name : string) (exist_ok : bool) : M unit :=
  makedirs_fuel (String.length name) name exist_ok.

Fixpoint strip_prefix (pre s : string) : option string :=
  match pre, s with
  | EmptyString, _ => Some s
  | String a pre', String b s' =>
      if Ascii.eqb a b then strip_prefix pre' s' else None
  | String _ _, EmptyString => None
  end.

Fixpoint has_slash (s : string) : bool :=
  match s with
  | EmptyString => false
  | String c s' => Ascii.eqb c "/" || has_slash s'
  end.

(** The name of [p] inside directory [d], when [p] lies directly in it. *)
Definition entry_of (d p : string) : option string :=
  match strip_prefix (d ++ "/") p with
  | Some name =>
      if String.eqb name "" || has_slash name then None else Some name
  | None => None
  end.

(** [os.listdir(d)], in no particular order. *)
Definition listdir (d : string) : M (list string) := fun w =>
  if isdir (fs w) d
  then Ok (omap (entry_of d)
             (elements (fs_dirs (fs w) ∪ dom (fs_files (fs w))))) w
  else if isfile (fs w) d then Raise (NotADirectoryError d) w
  else Raise (FileNotFoundError d) w.

End os.

(** [sorted(l)] on strings: insertion sort by code points. *)
Fixpoint insert_sorted (x : string) (l : list string) : list string :=
  match l with
  | [] => [x]
  | y :: l' => if String.leb x y then x :: l else y :: insert_sorted x l'
  end.

Definition sorted (l : list string) : list string :=
  foldr insert_sorted [] l.

(** ** The calls into pyplot *)


Fixpoint ends_with_rev (rsuffix rs : list ascii) : bool :=
  match rsuffix, rs with
  | [], _ => true
  | a :: rsuffix', b :: rs' => Ascii.eqb a b && ends_with_rev rsuffix' rs'
  | _ :: _, [] => false
  end.

(** [s.endswith(suffix)] *)
Definition ends_with (suffix s : string) : bool :=
  ends_with_rev (rev (list_ascii_of_string suffix)) (rev (list_ascii_of_string s)).

Module plt.

Definition empty_axes : Axes :=
  {| ax_artists := []; ax_xcategories := []; ax_xticks := [];
     ax_xticklabels := []; ax_calls := [] |}.

Definition new_figure (n : nat) (kw : kwargs) : Figure :=
  {| fig_kw := kw; fig_axes := replicate n empty_axes; fig_calls := [] |}.



(** [fig, ax = plt.subplots(figsize=..)]: a new current figure with one axes. *)
Definition subplots1 (kw : kwargs) : M nat := fun w =>
  Ok 0%nat (set_figs (new_figure 1 kw :: plt_figs w) w).

(** [fig, axes = plt.subplots(nrows, ncols, figsize=..)] *)
Definition subplots (nrows ncols : nat) (kw : kwargs) : M (list nat) := fun w =>
  Ok (seq 0 (nrows * ncols))
     (set_figs (new_figure (nrows * ncols) kw :: plt_figs w) w).

(** [plt.gcf()]: the current figure, a new empty one if none is open. *)
Definition gcf : M Figure := fun w =>
  match plt_figs w with
  | f :: _ => Ok f w
  | [] => Ok (new_figure 0 []) (set_figs [new_figure 0 []] w)
  end.

Definition update_gcf (upd : Figure -> Figure) : M unit :=
  _ ← gcf;
  ((fun w => match plt_figs w with
             | f :: figs => Ok tt (set_figs (upd f :: figs) w)
             | [] => Ok tt w
             end) : M unit).

(** [plt.tight_layout()] *)
Definition tight_layout : M unit :=
  update_gcf (fun f => {| fig_kw := fig_kw f; fig_axes := fig_axes f;
                          fig_calls := fig_calls f ++ ["tight_layout"] |}).

(** The output format, from the extension of the file name.  Of the
    formats matplotlib knows only the two the script asks for are
    modelled. *)
Definition format_of (fname : string) : option Format :=
  if ends_with ".png" fname then Some PNG
  else if ends_with ".pdf" fname then Some PDF
  else None.

(** [plt.savefig(fname)]: the current figure, in the format of the
    extension, under the rc parameters in force. *)
Definition savefig (fname : string) : M unit :=
  fig ← gcf;
  fmt ← run_option (ValueError "unsupported format") (format_of fname);
  ((fun w => os.lift (os.write_file fname
                        (Image fmt (rcParams w) (rc_styles w) fig)) w) : M unit).

(** [plt.close()] *)
Definition close : M unit := fun w => Ok tt (set_figs (tail (plt_figs w)) w).

End plt.

(** ** The methods of an axes and of its artists

    An axes is named by its index in the current figure, a bar by the
    axes, the index of its container among the artists, and its index in
    the container.  The script holds such names only while their figure
    is current. *)

Inductive BarX :=
| XCat (labels : list string)
| XNum (xs : list float).

Fixpoint unique_from (seen l : list string) : list string :=
  match l with
  | [] => []
  | x :: l' =>
      if existsb (String.eqb x) seen then unique_from seen l'
      else x :: unique_from (x :: seen) l'
  end.

Fixpoint index_of (x : string) (l : list string) : nat :=
  match l with
  | [] => 0
  | y :: l' => if String.eqb y x then 0 else S (index_of x l')
  end.

(** Colours are taken from the list in turn, starting over at its end;
    an empty list draws no face. *)
Definition cycle_color (colors : list string) (i : nat) : string :=
  match colors with
  | [] => "none"
  | c :: _ => nth (i mod length colors) colors c
  end.

(** [np.arange(n)] *)
Definition arange (n : nat) : list Z := map Z.of_nat (seq 0 n).

(** [enumerate(l)] *)
Definition enumerate {A : Type} (l : list A) : list (Z * A) :=
  zip (arange (length l)) l.

(** [range(n)] *)
Definition range (n : nat) : list nat := seq 0 n.

(** [sub in s] *)
Fixpoint contains (sub s : string) : bool :=
  String.prefix sub s
  || match s with
     | EmptyString => false
     | String _ s' => contains sub s'
     end.

Module ax.

Definition read (a : nat) : M Axes := fun w =>
  match plt_figs w with
  | f :: _ =>
      match fig_axes f !! a with
      | Some x => Ok x w
      | None => Raise (RuntimeError "no such axes") w
      end
  | [] => Raise (RuntimeError "no current figure") w
  end.

Definition modify (a : nat) (upd : Axes -> Axes) : M unit :=
  x ← read a;
  plt.update_gcf (fun f =>
    {| fig_kw := fig_kw f; fig_axes := <[ a := upd x ]> (fig_axes f);
       fig_calls := fig_calls f |}).

Definition set_artists (l : list Artist) (x : Axes) : Axes :=
  {| ax_artists := l; ax_xcategories := ax_xcategories x;
     ax_xticks := ax_xticks x; ax_xticklabels := ax_xticklabels x;
     ax_calls := ax_calls x |}.

Definition add_artist (a : nat) (art : Artist) : M nat :=
  x ← read a;
  modify a (set_artists (ax_artists x ++ [art])%list) ;;
  mret (length (ax_artists x)).

(** A setter or other call that only records its arguments. *)
Definition call (a : nat) (name : string) (arg : pyval) : M unit :=
  modify a (fun x =>
    {| ax_artists := ax_artists x; ax_xcategories := ax_xcategories x;
       ax_xticks := ax_xticks x; ax_xticklabels := ax_xticklabels x;
       ax_calls := ax_calls x ++ [(name, arg)] |}).

Definition set_xlabel (a : nat) (s : string) : M unit := call a "set_xlabel" (VStr s).
Definition set_ylabel (a : nat) (s : string) : M unit := call a "set_ylabel" (VStr s).
Definition set_title (a : nat) (s : string) (kw : kwargs) : M unit :=
  call a "set_title" (VTuple [VStr s; VDict kw]).
Definition set_xlim (a : nat) (lo hi : pyval) : M unit := call a "set_xlim" (VTuple [lo; hi]).
Definition set_ylim (a : nat) (lo hi : pyval) : M unit := call a "set_ylim" (VTuple [lo; hi]).
Definition set_aspect (a : nat) (s : string) : M unit := call a "set_aspect" (VStr s).
Definition axis (a : nat) (s : string) : M unit := call a "axis" (VStr s).
Definition legend (a : nat) (kw : kwargs) : M unit := call a "legend" (VDict kw).

(** [ax.set_xticks(x)] *)
Definition set_xticks (a : nat) (x : list Z) : M unit :=
  modify a (fun ax =>
    {| ax_artists := ax_artists ax; ax_xcategories := ax_xcategories ax;
       ax_xticks := map float_of_Z x; ax_xticklabels := ax_xticklabels ax;
       ax_calls := ax_calls ax |}).

(** [ax.set_xticklabels(labels)] *)
Definition set_xticklabels (a : nat) (labels : list string) : M unit :=
  modify a (fun ax =>
    {| ax_artists := ax_artists ax; ax_xcategories := ax_xcategories ax;
       ax_xticks := ax_xticks ax; ax_xticklabels := labels;
       ax_calls := ax_calls ax |}).

(** The positions of the bars: numbers as given, strings through the
    categories of the axis, each new string taking the next position. *)
Definition bar_positions (x : BarX) (cats : list string) : list string * list float :=
  match x with
  | XNum xs => (cats, xs)
  | XCat labels =>
      let cats' := (cats ++ unique_from cats labels)%list in
      (cats', map (fun l => float_of_Z (Z.of_nat (index_of l cats'))) labels)
  end.

(** [ax.bar(x, height, width, label=label, color=color,
    edgecolor=edgecolor, linewidth=linewidth)], bars centred on [x].
    Returns the names of the bars. *)
Definition bar (a : nat) (x : BarX) (height : list float) (width : float)
    (label : option string) (color : list string) (edgecolor : string)
    (linewidth : float) : M (list (nat * nat * nat)) :=
  axes ← read a;
  let '(cats, xs) := bar_positions x (ax_xcategories axes) in
  if negb (Nat.eqb (length xs) (length height))
  then raise (ValueError "shape mismatch")
  else
    let patches :=
      imap (fun i xh =>
              {| rect_x := (fst xh - width / 2)%float; rect_width := width;
                 rect_height := snd xh; rect_facecolor := cycle_color color i;
                 rect_edgecolor := edgecolor; rect_linewidth := linewidth |})
           (zip xs height) in
    modify a (fun ax =>
      {| ax_artists := ax_artists ax; ax_xcategories := cats;
         ax_xticks := ax_xticks ax; ax_xticklabels := ax_xticklabels ax;
         ax_calls := ax_calls ax |}) ;;
    k ← add_artist a (ABars label patches);
    mret (map (fun i => (a, k, i)) (seq 0 (length patches))).

(** [ax.plot(x, y, marker=.., color=.., label=.., linewidth=..,
    markersize=.., linestyle=..)] *)
Definition plot (a : nat) (x : list Z) (y : list float) (marker color label : string)
    (linewidth markersize : float) (linestyle : string) : M unit :=
  if negb (Nat.eqb (length x) (length y))
  then raise (ValueError "x and y must have same first dimension")
  else
    _ ← add_artist a (ALine {| line_xdata := map float_of_Z x; line_ydata := y;
                               line_marker := marker; line_color := color;
                               line_label := label; line_linewidth := linewidth;
                               line_markersize := markersize;
                               line_linestyle := linestyle |});
    mret tt.

Definition annotate (a : nat) (text : string) (xy : pyval) (kw : kwargs) : M unit :=
  _ ← add_artist a (AAnnotation text xy kw); mret tt.

Definition text (a : nat) (x y : pyval) (s : string) (kw : kwargs) : M unit :=
  _ ← add_artist a (AText x y s kw); mret tt.

Definition axhline (a : nat) (kw : kwargs) : M unit :=
  _ ← add_artist a (AHLine kw); mret tt.

Definition fill_between (a : nat) (x y1 y2 : list pyval) (kw : kwargs) : M unit :=
  _ ← add_artist a (AFillBetween x y1 y2 kw); mret tt.

Definition add_patch (a : nat) (patch : Artist) : M unit :=
  _ ← add_artist a patch; mret tt.

(** [ax.table(cellText=.., colLabels=.., colColours=.., ...)]: every row
    as long as the first, one label and one colour per column. *)
Definition table (a : nat) (cellText : list (list string)) (colLabels : list string)
    (colColours : list string) (kw : kwargs) : M (nat * nat) :=
  row0 ← getindex cellText 0;
  let cols := length row0 in
  if negb (forallb (fun row => Nat.eqb (length row) cols) cellText)
  then raise (ValueError "Each row in 'cellText' must have the same number of columns")
  else if negb (Nat.eqb (length colColours) cols)
  then raise (ValueError "'colColours' must be of length the number of columns")
  else if negb (Nat.eqb (length colLabels) cols)
  then raise (ValueError "'colLabels' must be of length the number of columns")
  else
    k ← add_artist a (ATable {| tab_cellText := cellText; tab_colLabels := colLabels;
                                tab_kw := ("colColours", VTuple (map VStr colColours)) :: kw;
                                tab_calls := []; tab_cell_calls := [] |});
    mret (a, k).

End ax.

(** The methods of one bar. *)
Module bar.

Definition get (b : nat * nat * nat) : M Rectangle :=
  let '(a, k, i) := b in
  x ← ax.read a;
  match ax_artists x !! k with
  | Some (ABars _ patches) => run_option (RuntimeError "no such bar") (patches !! i)
  | _ => raise (RuntimeError "no such bar")
  end.

Definition get_x (b : nat * nat * nat) : M float := r ← get b; mret (rect_x r).
Definition get_width (b : nat * nat * nat) : M float := r ← get b; mret (rect_width r).
Definition get_height (b : nat * nat * nat) : M float := r ← get b; mret (rect_height r).

Definition update (b : nat * nat * nat) (upd : Rectangle -> Rectangle) : M unit :=
  let '(a, k, i) := b in
  r ← get b;
  x ← ax.read a;
  match ax_artists x !! k with
  | Some (ABars label patches) =>
      ax.modify a (ax.set_artists
        (<[ k := ABars label (<[ i := upd r ]> patches) ]> (ax_artists x)))
  | _ => raise (RuntimeError "no such bar")
  end.

Definition set_edgecolor (b : nat * nat * nat) (c : string) : M unit :=
  update b (fun r =>
    {| rect_x := rect_x r; rect_width := rect_width r; rect_height := rect_height r;
       rect_facecolor := rect_facecolor r; rect_edgecolor := c;
       rect_linewidth := rect_linewidth r |}).

Definition set_linewidth (b : nat * nat * nat) (lw : float) : M unit :=
  update b (fun r =>
    {| rect_x := rect_x r; rect_width := rect_width r; rect_height := rect_height r;
       rect_facecolor := rect_facecolor r; rect_edgecolor := rect_edgecolor r;
       rect_linewidth := lw |}).

End bar.

(** The methods of a table, named by its axes and its index there. *)
Module table.

Definition update (t : nat * nat) (upd : Table -> Table) : M unit :=
  let '(a, k) := t in
  x ← ax.read a;
  match ax_artists x !! k with
  | Some (ATable tab) =>
      ax.modify a (ax.set_artists (<[ k := ATable (upd tab) ]> (ax_artists x)))
  | _ => raise (RuntimeError "no such table")
  end.

Definition call (t : nat * nat) (name : string) (arg : pyval) : M unit :=
  update t (fun tab =>
    {| tab_cellText := tab_cellText tab; tab_colLabels := tab_colLabels tab;
       tab_kw := tab_kw tab; tab_calls := tab_calls tab ++ [(name, arg)];
       tab_cell_calls := tab_cell_calls tab |}).

Definition auto_set_font_size (t : nat * nat) (b : bool) : M unit :=
  call t "auto_set_font_size" (VBool b).
Definition set_fontsize (t : nat * nat) (size : Z) : M unit :=
  call t "set_fontsize" (VInt size).
Definition scale (t : nat * nat) (xscale yscale : pyval) : M unit :=
  call t "scale" (VTuple [xscale; yscale]).

(** [table[(r, c)].<name>(<arg>)]; [KeyError] when the table has no such
    cell. *)
Definition cell_call (t : nat * nat) (rc : nat * nat) (name : string) (arg : pyval)
  : M unit :=
  let '(a, k) := t in
  x ← ax.read a;
  match ax_artists x !! k with
  | Some (ATable tab) =>
      if (fst rc <=? length (tab_cellText tab))%nat
         && (snd rc <? length (tab_colLabels tab))%nat
      then update t (fun tab =>
        {| tab_cellText := tab_cellText tab; tab_colLabels := tab_colLabels tab;
           tab_kw := tab_kw tab; tab_calls := tab_calls tab;
           tab_cell_calls := tab_cell_calls tab ++ [(rc, (name, arg))] |})
      else raise (KeyError ("(" ++ str_int (Z.of_nat (fst rc)) ++ ", "
                              ++ str_int (Z.of_nat (snd rc)) ++ ")"))
  | _ => raise (RuntimeError "no such table")
  end.

End table.

(** ** The script *)

Definition nl : string := String (ascii_of_nat 10) EmptyString.


(** The tables of the module as the source writes them. *)
Definition module_globals : Globals := {|
  COLORS :=
    [("manifesto", "#2ecc71");
     ("openai-mini", "#3498db");
     ("openai-4o", "#2980b9");
     ("react-mini", "#e74c3c");
     ("react-4o", "#c0392b")];
  OVERALL_DATA :=
    [("Manifesto", {| calls := 2.0; tokens := 850; cost := 0.0002; latency := 2.3; success := 96 |});
     ("OpenAI-mini", {| calls := 5.6; tokens := 6113; cost := 0.0010; latency := 8.8; success := 98 |});
     ("OpenAI-4o", {| calls := 3.9; tokens := 2366; cost := 0.0131; latency := 2.7; success := 97 |});
     ("ReAct-mini", {| calls := 3.1; tokens := 2063; cost := 0.0004; latency := 4.3; success := 99 |});
     ("ReAct-4o", {| calls := 2.6; tokens := 1472; cost := 0.0089; latency := 2.6; success := 97 |})];
  CATEGORY_DATA :=
    [("Simple", [("Manifesto", 2.0); ("OpenAI-mini", 2.6); ("OpenAI-4o", 2.2); ("ReAct-mini", 3.5); ("ReAct-4o", 2.1)]%float);
     ("Multi-field", [("Manifesto", 2.0); ("OpenAI-mini", 6.5); ("OpenAI-4o", 3.6); ("ReAct-mini", 2.3); ("ReAct-4o", 2.3)]%float);
     ("Contextual", [("Manifesto", 2.0); ("OpenAI-mini", 4.6); ("OpenAI-4o", 4.4); ("ReAct-mini", 3.4); ("ReAct-4o", 2.5)]%float);
     ("Bulk", [("Manifesto", 2.0); ("OpenAI-mini", 6.8); ("OpenAI-4o", 5.0); ("ReAct-mini", 3.3); ("ReAct-4o", 3.3)]%float);
     ("Exception", [("Manifesto", 2.0); ("OpenAI-mini", 9.6); ("OpenAI-4o", 5.0); ("ReAct-mini", 3.7); ("ReAct-4o", 3.3)]%float)];
  OUTPUT_DIR := "figures";
|}.

Definition ensure_output_dir (g : Globals) : M unit :=
  os.makedirs (OUTPUT_DIR g) true.

(** Figure 1: Overall LLM Calls Comparison *)
Definition fig1_llm_calls_comparison (g : Globals) : M unit :=
  ax ← plt.subplots1 [("figsize", VTuple [VInt 10; VInt 6])];

  let methods := keys (OVERALL_DATA g) in
  calls ← comprehension methods
            (fun m => row ← getitem (OVERALL_DATA g) m; mret (calls row));
  let colors := ["#2ecc71"; "#3498db"; "#2980b9"; "#e74c3c"; "#c0392b"] in

  bars ← ax.bar ax (XCat methods) calls 0.8 None colors "black" 1.2;

  for_each (zip bars calls) (fun '(bar, val) =>
    x ← bar.get_x bar; w ← bar.get_width bar; h ← bar.get_height bar;
    ax.annotate ax (format_f 1 val) (VTuple [VFloat (x + w / 2); VFloat h])
      [("xytext", VTuple [VInt 0; VInt 5]); ("textcoords", VStr "offset points");
       ("ha", VStr "center"); ("va", VStr "bottom");
       ("fontweight", VStr "bold"); ("fontsize", VInt 12)]) ;;

  bar0 ← getindex bars 0;
  bar.set_edgecolor bar0 "#27ae60" ;;
  bar.set_linewidth bar0 3 ;;

  ax.axhline ax [("y", VInt 2); ("color", VStr "#2ecc71"); ("linestyle", VStr "--");
                 ("linewidth", VInt 2); ("alpha", VFloat 0.7);
                 ("label", VStr "Manifesto (constant)")] ;;

  ax.set_ylabel ax "Average LLM Calls per Task" ;;
  ax.set_title ax "LLM Call Efficiency: Intent-Native vs Traditional Approaches" [] ;;
  ax.set_ylim ax (VInt 0) (VInt 7) ;;
  ax.legend ax [("loc", VStr "upper right")] ;;

  ax.annotate ax "2.8x fewer calls" (VTuple [VInt 0; VFloat 2.0])
    [("xytext", VTuple [VFloat 2.5; VInt 5]);
     ("arrowprops", VDict [("arrowstyle", VStr "->"); ("color", VStr "#2ecc71"); ("lw", VInt 2)]);
     ("fontsize", VInt 12); ("color", VStr "#2ecc71"); ("fontweight", VStr "bold")] ;;

  plt.tight_layout ;;
  plt.savefig (OUTPUT_DIR g ++ "/fig1_llm_calls_comparison.png") ;;
  plt.savefig (OUTPUT_DIR g ++ "/fig1_llm_calls_comparison.pdf") ;;
  plt.close ;;
  print "✓ Generated: fig1_llm_calls_comparison".

(** Figure 2: LLM Calls by Task Category (KEY FIGURE) *)
Definition fig2_calls_by_category (g : Globals) : M unit :=
  ax ← plt.subplots1 [("figsize", VTuple [VInt 12; VInt 7])];

  let categories := keys (CATEGORY_DATA g) in
  let x := arange (length categories) in
  let width := 0.15%float in

  let methods := ["Manifesto"; "OpenAI-mini"; "OpenAI-4o"; "ReAct-mini"; "ReAct-4o"] in
  let colors := ["#2ecc71"; "#3498db"; "#2980b9"; "#e74c3c"; "#c0392b"] in

  for_each (enumerate (zip methods colors)) (fun '(i, (method, color)) =>
    values ← comprehension categories
               (fun cat => row ← getitem (CATEGORY_DATA g) cat; getitem row method);
    let offset := (float_of_Z (i - 2) * width)%float in
    bars ← ax.bar ax (XNum (map (fun xi => (float_of_Z xi + offset)%float) x))
             values width (Some method) [color] "black" 0.5;

    if String.eqb method "Manifesto"
    then for_each bars (fun bar =>
           bar.set_edgecolor bar "#27ae60" ;;
           bar.set_linewidth bar 2)
    else mret tt) ;;

  ax.axhline ax [("y", VInt 2); ("color", VStr "#2ecc71"); ("linestyle", VStr "--");
                 ("linewidth", VFloat 2.5); ("alpha", VFloat 0.8)] ;;
  ax.annotate ax "Manifesto: O(1) = 2 calls" (VTuple [VFloat 4.3; VFloat 2.2])
    [("fontsize", VInt 12); ("color", VStr "#27ae60"); ("fontweight", VStr "bold")] ;;

  ax.annotate ax "" (VTuple [VFloat 4.15; VFloat 9.6])
    [("xytext", VTuple [VFloat 4.15; VFloat 2.0]);
     ("arrowprops", VDict [("arrowstyle", VStr "<->"); ("color", VStr "#e74c3c"); ("lw", VInt 2)])] ;;
  ax.annotate ax ("4.8x" ++ nl ++ "gap") (VTuple [VFloat 4.25; VFloat 5.5])
    [("fontsize", VInt 11); ("color", VStr "#e74c3c"); ("fontweight", VStr "bold")] ;;

  ax.set_xlabel ax "Task Category (Increasing Complexity →)" ;;
  ax.set_ylabel ax "Average LLM Calls" ;;
  ax.set_title ax "Scaling Behavior: Manifesto Maintains Constant Calls Across Complexity Levels" [] ;;
  ax.set_xticks ax x ;;
  ax.set_xticklabels ax categories ;;
  ax.set_ylim ax (VInt 0) (VInt 11) ;;
  ax.legend ax [("loc", VStr "upper left"); ("ncol", VInt 2)] ;;

  ax.annotate ax "" (VTuple [VFloat 4.5; VFloat (-0.8)])
    [("xytext", VTuple [VFloat (-0.5); VFloat (-0.8)]);
     ("arrowprops", VDict [("arrowstyle", VStr "->"); ("color", VStr "gray"); ("lw", VFloat 1.5)]);
     ("annotation_clip", VBool false)] ;;

  plt.tight_layout ;;
  plt.savefig (OUTPUT_DIR g ++ "/fig2_calls_by_category.png") ;;
  plt.savefig (OUTPUT_DIR g ++ "/fig2_calls_by_category.pdf") ;;
  plt.close ;;
  print "✓ Generated: fig2_calls_by_category".

(** Figure 3: Cost Comparison *)
Definition fig3_cost_comparison (g : Globals) : M unit :=
  ax ← plt.subplots1 [("figsize", VTuple [VInt 10; VInt 6])];

  let methods := keys (OVERALL_DATA g) in
  costs ← comprehension methods
            (fun m => row ← getitem (OVERALL_DATA g) m; mret (cost row * 1000)%float);
  let colors := ["#2ecc71"; "#3498db"; "#2980b9"; "#e74c3c"; "#c0392b"] in

  bars ← ax.bar ax (XCat methods) costs 0.8 None colors "black" 1.2;

  for_each (zip bars costs) (fun '(bar, val) =>
    x ← bar.get_x bar; w ← bar.get_width bar; h ← bar.get_height bar;
    ax.annotate ax ("$" ++ format_f 4 (val / 1000)) (VTuple [VFloat (x + w / 2); VFloat h])
      [("xytext", VTuple [VInt 0; VInt 5]); ("textcoords", VStr "offset points");
       ("ha", VStr "center"); ("va", VStr "bottom"); ("fontsize", VInt 10)]) ;;

  bar0 ← getindex bars 0;
  bar.set_edgecolor bar0 "#27ae60" ;;
  bar.set_linewidth bar0 3 ;;

  ax.set_ylabel ax "Cost per Task (USD × 10⁻³)" ;;
  ax.set_title ax "Cost Efficiency: Manifesto is 44x Cheaper than GPT-4o Methods" [] ;;

  ax.annotate ax ("44x cheaper" ++ nl ++ "than ReAct-4o") (VTuple [VFloat 0.2; VFloat 1.5])
    [("xytext", VTuple [VFloat 1.5; VInt 8]);
     ("arrowprops", VDict [("arrowstyle", VStr "->"); ("color", VStr "#2ecc71"); ("lw", VInt 2)]);
     ("fontsize", VInt 11); ("color", VStr "#2ecc71"); ("fontweight", VStr "bold");
     ("bbox", VDict [("boxstyle", VStr "round,pad=0.3"); ("facecolor", VStr "white");
                     ("edgecolor", VStr "#2ecc71")])] ;;

  plt.tight_layout ;;
  plt.savefig (OUTPUT_DIR g ++ "/fig3_cost_comparison.png") ;;
  plt.savefig (OUTPUT_DIR g ++ "/fig3_cost_comparison.pdf") ;;
  plt.close ;;
  print "✓ Generated: fig3_cost_comparison".

(** Figure 4: Token Usage Comparison *)
Definition fig4_token_efficiency (g : Globals) : M unit :=
  ax ← plt.subplots1 [("figsize", VTuple [VInt 10; VInt 6])];

  let methods := keys (OVERALL_DATA g) in
  tokens ← comprehension methods
             (fun m => row ← getitem (OVERALL_DATA g) m; mret (tokens row));
  let colors := ["#2ecc71"; "#3498db"; "#2980b9"; "#e74c3c"; "#c0392b"] in

  bars ← ax.bar ax (XCat methods) (map float_of_Z tokens) 0.8 None colors "black" 1.2;

  for_each (zip bars tokens) (fun '(bar, val) =>
    x ← bar.get_x bar; w ← bar.get_width bar; h ← bar.get_height bar;
    ax.annotate ax (format_comma val) (VTuple [VFloat (x + w / 2); VFloat h])
      [("xytext", VTuple [VInt 0; VInt 5]); ("textcoords", VStr "offset points");
       ("ha", VStr "center"); ("va", VStr "bottom"); ("fontsize", VInt 10);
       ("fontweight", VStr "bold")]) ;;

  bar0 ← getindex bars 0;
  bar.set_edgecolor bar0 "#27ae60" ;;
  bar.set_linewidth bar0 3 ;;

  ax.set_ylabel ax "Average Tokens per Task" ;;
  ax.set_title ax "Token Efficiency: Manifesto Uses 7x Fewer Tokens" [] ;;

  ax.annotate ax ("7x fewer tokens" ++ nl ++ "vs OpenAI-mini") (VTuple [VFloat 0.3; VInt 1500])
    [("xytext", VTuple [VInt 2; VInt 5000]);
     ("arrowprops", VDict [("arrowstyle", VStr "->"); ("color", VStr "#2ecc71"); ("lw", VInt 2)]);
     ("fontsize", VInt 11); ("color", VStr "#2ecc71"); ("fontweight", VStr "bold");
     ("bbox", VDict [("boxstyle", VStr "round,pad=0.3"); ("facecolor", VStr "white");
                     ("edgecolor", VStr "#2ecc71")])] ;;

  plt.tight_layout ;;
  plt.savefig (OUTPUT_DIR g ++ "/fig4_token_efficiency.png") ;;
  plt.savefig (OUTPUT_DIR g ++ "/fig4_token_efficiency.pdf") ;;
  plt.close ;;
  print "✓ Generated: fig4_token_efficiency".

(** Figure 5: Architecture Diagram - Traditional vs Intent-Native.  The
    box tuples hold their coordinates as floats, the int literals of the
    source converted as the arithmetic on them does. *)
Definition fig5_architecture_comparison (g : Globals) : M unit :=
  axes ← plt.subplots 1 2 [("figsize", VTuple [VInt 14; VInt 8])];

  ax1 ← getindex axes 0;
  ax.set_xlim ax1 (VInt 0) (VInt 10) ;;
  ax.set_ylim ax1 (VInt 0) (VInt 12) ;;
  ax.set_aspect ax1 "equal" ;;
  ax.axis ax1 "off" ;;
  ax.set_title ax1 "Traditional Agent (ReAct)"
    [("fontsize", VInt 14); ("fontweight", VStr "bold"); ("color", VStr "#e74c3c")] ;;

  let boxes_trad : list (float * float * string * string) :=
    [(1, 10, "User Input", "#ecf0f1");
     (1, 8.5, "LLM: Thought 1", "#e74c3c");
     (1, 7, "LLM: Action 1", "#e74c3c");
     (1, 5.5, "LLM: Thought 2", "#e74c3c");
     (1, 4, "LLM: Action 2", "#e74c3c");
     (1, 2.5, "...", "#bdc3c7");
     (1, 1, "LLM: Response", "#e74c3c")]%float in

  for_each boxes_trad (fun '(x, y, text, color) =>
    let rect := AFancyBboxPatch (x, y - 0.4)%float 8 0.8
                  [("boxstyle", VStr "round,pad=0.05,rounding_size=0.2");
                   ("facecolor", VStr color); ("edgecolor", VStr "black");
                   ("linewidth", VFloat 1.5)] in
    ax.add_patch ax1 rect ;;
    let text_color := if String.eqb color "#e74c3c" then "white" else "black" in
    ax.text ax1 (VInt 5) (VFloat y) text
      [("ha", VStr "center"); ("va", VStr "center"); ("fontsize", VInt 11);
       ("color", VStr text_color); ("fontweight", VStr "bold")]) ;;

  for_each (range (length boxes_trad - 1)) (fun i =>
    below ← getindex boxes_trad (i + 1);
    above ← getindex boxes_trad i;
    ax.annotate ax1 "" (VTuple [VInt 5; VFloat (snd (fst (fst below)) + 0.4)])
      [("xytext", VTuple [VInt 5; VFloat (snd (fst (fst above)) - 0.4)]);
       ("arrowprops", VDict [("arrowstyle", VStr "->"); ("color", VStr "black");
                             ("lw", VFloat 1.5)])]) ;;

  ax.text ax1 (VInt 5) (VFloat (-0.5)) "N LLM Calls (N = task complexity)"
    [("ha", VStr "center"); ("fontsize", VInt 12); ("color", VStr "#e74c3c");
     ("fontweight", VStr "bold")] ;;

  ax2 ← getindex axes 1;
  ax.set_xlim ax2 (VInt 0) (VInt 10) ;;
  ax.set_ylim ax2 (VInt 0) (VInt 12) ;;
  ax.set_aspect ax2 "equal" ;;
  ax.axis ax2 "off" ;;
  ax.set_title ax2 "Intent-Native (Manifesto)"
    [("fontsize", VInt 14); ("fontweight", VStr "bold"); ("color", VStr "#2ecc71")] ;;

  let boxes_intent : list (float * float * string * string) :=
    [(1, 10, "User Input", "#ecf0f1");
     (1, 7.5, "LLM 1: Intent Parser", "#2ecc71");
     (1, 5, "Deterministic Runtime", "#3498db");
     (1, 2.5, "LLM 2: Response Gen", "#2ecc71")]%float in

  for_each boxes_intent (fun '(x, y, text, color) =>
    let height := (if contains "Runtime" text then 1.5 else 0.8)%float in
    let rect := AFancyBboxPatch (x, y - height / 2)%float 8 height
                  [("boxstyle", VStr "round,pad=0.05,rounding_size=0.2");
                   ("facecolor", VStr color); ("edgecolor", VStr "black");
                   ("linewidth", VFloat 1.5)] in
    ax.add_patch ax2 rect ;;
    ax.text ax2 (VInt 5) (VFloat y) text
      [("ha", VStr "center"); ("va", VStr "center"); ("fontsize", VInt 11);
       ("color", VStr "white"); ("fontweight", VStr "bold")]) ;;

  let arrow_positions : list (float * float) :=
    [(10, 7.5 + 0.4); (7.5, 5 + 0.75); (5, 2.5 + 0.4)]%float in
  for_each (enumerate ([(10 - 0.4, 7.5 + 0.4); (7.5 - 0.4, 5 + 0.75);
                        (5 - 0.75, 2.5 + 0.4)]%float : list (float * float)))
    (fun '(i, (y_from, y_to)) =>
    ax.annotate ax2 "" (VTuple [VInt 5; VFloat y_to])
      [("xytext", VTuple [VInt 5; VFloat y_from]);
       ("arrowprops", VDict [("arrowstyle", VStr "->"); ("color", VStr "black");
                             ("lw", VFloat 1.5)])]) ;;

  ax.annotate ax2 "No LLM!" (VTuple [VFloat 9.2; VInt 5])
    [("fontsize", VInt 10); ("color", VStr "#3498db"); ("fontweight", VStr "bold")] ;;

  ax.text ax2 (VInt 5) (VFloat (-0.5)) "2 LLM Calls (constant, always)"
    [("ha", VStr "center"); ("fontsize", VInt 12); ("color", VStr "#2ecc71");
     ("fontweight", VStr "bold")] ;;

  plt.tight_layout ;;
  plt.savefig (OUTPUT_DIR g ++ "/fig5_architecture_comparison.png") ;;
  plt.savefig (OUTPUT_DIR g ++ "/fig5_architecture_comparison.pdf") ;;
  plt.close ;;
  print "✓ Generated: fig5_architecture_comparison".

(** Figure 6: Line chart showing scaling behavior *)
Definition fig6_scaling_line (g : Globals) : M unit :=
  ax ← plt.subplots1 [("figsize", VTuple [VInt 10; VInt 6])];

  let categories := keys (CATEGORY_DATA g) in
  let x := arange (length categories) in

  let methods := ["Manifesto"; "OpenAI-mini"; "OpenAI-4o"; "ReAct-mini"; "ReAct-4o"] in
  let colors := ["#2ecc71"; "#3498db"; "#2980b9"; "#e74c3c"; "#c0392b"] in
  let markers := ["o"; "s"; "s"; "^"; "^"] in
  let linestyles := ["-"; "-"; "--"; "-"; "--"] in

  for_each (zip (zip (zip methods colors) markers) linestyles)
    (fun '(method, color, marker, ls) =>
    values ← comprehension categories
               (fun cat => row ← getitem (CATEGORY_DATA g) cat; getitem row method);
    let linewidth := (if String.eqb method "Manifesto" then 4 else 2)%float in
    let markersize := (if String.eqb method "Manifesto" then 12 else 8)%float in
    ax.plot ax x values marker color method linewidth markersize ls) ;;

  ax.fill_between ax [VFloat (4 - 0.1); VFloat (4 + 0.1)] [VInt 2; VInt 2]
    [VFloat 9.6; VFloat 9.6] [("alpha", VFloat 0.2); ("color", VStr "#e74c3c")] ;;
  ax.annotate ax "4.8x gap" (VTuple [VFloat 4.15; VFloat 5.8])
    [("fontsize", VInt 11); ("color", VStr "#e74c3c"); ("fontweight", VStr "bold")] ;;

  ax.set_xlabel ax "Task Category (Increasing Complexity →)" ;;
  ax.set_ylabel ax "Average LLM Calls" ;;
  ax.set_title ax "Scaling Behavior: O(1) vs O(n)" [] ;;
  ax.set_xticks ax x ;;
  ax.set_xticklabels ax categories ;;
  ax.set_ylim ax (VInt 0) (VInt 11) ;;
  ax.legend ax [("loc", VStr "upper left")] ;;

  ax.text ax (VInt 2) (VInt 1) "O(1)"
    [("fontsize", VInt 14); ("color", VStr "#2ecc71"); ("fontweight", VStr "bold")] ;;
  ax.text ax (VFloat 3.5) (VInt 7) "O(n)"
    [("fontsize", VInt 14); ("color", VStr "#3498db"); ("fontweight", VStr "bold")] ;;

  plt.tight_layout ;;
  plt.savefig (OUTPUT_DIR g ++ "/fig6_scaling_line.png") ;;
  plt.savefig (OUTPUT_DIR g ++ "/fig6_scaling_line.pdf") ;;
  plt.close ;;
  print "✓ Generated: fig6_scaling_line".

(** Figure 7: Summary comparison table as figure *)
Definition fig7_summary_table (g : Globals) : M unit :=
  ax ← plt.subplots1 [("figsize", VTuple [VInt 12; VInt 4])];
  ax.axis ax "off" ;;

  let columns := ["Method"; "LLM Calls"; "Tokens"; "Cost/Task"; "Success"; "Complexity"] in
  let rows :=
    [["Manifesto (Ours)"; "2.0"; "850"; "$0.0002"; "96%"; "O(1)"];
     ["OpenAI-mini"; "5.6"; "6,113"; "$0.0010"; "98%"; "O(n)"];
     ["OpenAI-4o"; "3.9"; "2,366"; "$0.0131"; "97%"; "O(n)"];
     ["ReAct-mini"; "3.1"; "2,063"; "$0.0004"; "99%"; "O(n)"];
     ["ReAct-4o"; "2.6"; "1,472"; "$0.0089"; "97%"; "O(n)"]] in

  table ← ax.table ax rows columns (replicate (length columns) "#34495e")
            [("loc", VStr "center"); ("cellLoc", VStr "center")];

  table.auto_set_font_size table false ;;
  table.set_fontsize table 11 ;;
  table.scale table (VFloat 1.2) (VInt 2) ;;

  for_each (range (length columns)) (fun i =>
    table.cell_call table (0, i)%nat "set_text_props"
      (VDict [("color", VStr "white"); ("fontweight", VStr "bold")])) ;;

  for_each (range (length columns)) (fun i =>
    table.cell_call table (1, i)%nat "set_facecolor" (VStr "#d5f5e3") ;;
    table.cell_call table (1, i)%nat "set_text_props"
      (VDict [("fontweight", VStr "bold")])) ;;

  ax.set_title ax "Experimental Results Summary (500 runs on TaskBench-100)"
    [("fontsize", VInt 14); ("fontweight", VStr "bold"); ("pad", VInt 20)] ;;

  plt.tight_layout ;;
  plt.savefig (OUTPUT_DIR g ++ "/fig7_summary_table.png") ;;
  plt.savefig (OUTPUT_DIR g ++ "/fig7_summary_table.pdf") ;;
  plt.close ;;
  print "✓ Generated: fig7_summary_table".

Definition main (g : Globals) : M unit :=
  ensure_output_dir g ;;
  print (nl ++ "📊 Generating ICML 2026 Paper Figures..." ++ nl) ;;

  fig1_llm_calls_comparison g ;;
  fig2_calls_by_category g ;;
  fig3_cost_comparison g ;;
  fig4_token_efficiency g ;;
  fig5_architecture_comparison g ;;
  fig6_scaling_line g ;;
  fig7_summary_table g ;;

  print (nl ++ "✅ All figures saved to " ++ OUTPUT_DIR g ++ "/") ;;
  print (nl ++ "Generated files:") ;;
  files ← os.listdir (OUTPUT_DIR g);
  for_each (sorted files) (fun f => print ("  - " ++ f)).


(** ** What a run leaves behind: observations used by the theorems *)

(** The seven builders with their base names, in the order [main] calls
    them. *)
Definition figure_builders : list (string * (Globals -> M unit)) :=
  [("fig1_llm_calls_comparison", fig1_llm_calls_comparison);
   ("fig2_calls_by_category", fig2_calls_by_category);
   ("fig3_cost_comparison", fig3_cost_comparison);
   ("fig4_token_efficiency", fig4_token_efficiency);
   ("fig5_architecture_comparison", fig5_architecture_comparison);
   ("fig6_scaling_line", fig6_scaling_line);
   ("fig7_summary_table", fig7_summary_table)].


Definition png_path (g : Globals) (name : string) : string :=
  OUTPUT_DIR g ++ "/" ++ name ++ ".png".

Definition pdf_path (g : Globals) (name : string) : string :=
  OUTPUT_DIR g ++ "/" ++ name ++ ".pdf".



(** The same with the output directory of the module already made. *)
Definition ready_world : World :=
  {| fs := {| fs_dirs := {[ "figures" ]}; fs_files := ∅; fs_denied := ∅ |};
     console := []; plt_figs := []; rc_styles := []; rcParams := [] |}.

(** The figure saved at [p], if [p] holds one. *)
Definition rendered (w : World) (p : string) : option Figure :=
  match fs_files (fs w) !! p with
  | Some (Image _ _ _ f) => Some f
  | _ => None
  end.

(** The figure a builder of the module saves as its PNG when run in
    [ready_world]. *)
Definition figure_of (name : string) (b : Globals -> M unit) : Figure :=
  match b module_globals ready_world with
  | Ok _ w => default (plt.new_figure 0 []) (rendered w (png_path module_globals name))
  | Raise _ _ => plt.new_figure 0 []
  end.

(** [os.write_file p _ s] goes through exactly when [writable s p]. *)
Definition writable (s : FileSystem) (p : string) : bool :=
  negb (String.eqb p "")
  && (String.eqb (os.dirname p) "" || os.isdir s (os.dirname p))
  && negb (os.isdir s p)
  && negb (bool_decide (p ∈ fs_denied s)).

(** The tail every builder ends with, once its figure [F] is drawn: save
    as PNG, save as PDF, close, report.  [builder_run] shows each builder
    of the module to run as this. *)
Definition save_pair (g : Globals) (name : string) (F : Figure) : M unit := fun w =>
  let opened := set_figs (F :: plt_figs w) w in
  match os.write_file (png_path g name) (Image PNG (rcParams w) (rc_styles w) F) (fs w) with
  | inr e => Raise e opened
  | inl s1 =>
      match os.write_file (pdf_path g name) (Image PDF (rcParams w) (rc_styles w) F) s1 with
      | inr e => Raise e (set_fs s1 opened)
      | inl s2 =>
          Ok tt {| fs := s2; console := console w ++ ["✓ Generated: " ++ name];
                   plt_figs := plt_figs w; rc_styles := rc_styles w;
                   rcParams := rcParams w |}
      end
  end.

(** The two files a builder writes, for a run started in [w]. *)
Definition artifacts_of (g : Globals) (w : World) (name : string) (F : Figure)
  : list (string * FileData) :=
  [(png_path g name, Image PNG (rcParams w) (rc_styles w) F);
   (pdf_path g name, Image PDF (rcParams w) (rc_styles w) F)].

(** Writing files one after the other. *)
Definition write_all (files : list (string * FileData)) (m : gmap string FileData)
  : gmap string FileData :=
  foldl (fun m pd => <[ fst pd := snd pd ]> m) m files.

(** [main] up to, not including, the [i]-th builder. *)
Definition main_before (g : Globals) (i : nat) : M unit :=
  ensure_output_dir g ;;
  print (nl ++ "📊 Generating ICML 2026 Paper Figures..." ++ nl) ;;
  for_each (take i figure_builders) (fun nb => snd nb g).

(** [main] after the last builder. *)
Definition main_listing (g : Globals) : M unit :=
  print (nl ++ "✅ All figures saved to " ++ OUTPUT_DIR g ++ "/") ;;
  print (nl ++ "Generated files:") ;;
  files ← os.listdir (OUTPUT_DIR g);
  for_each (sorted files) (fun f => print ("  - " ++ f)).

Definition artists_of (f : Figure) : list Artist :=
  concat (map ax_artists (fig_axes f)).

(** The bar containers of a figure: label and bars. *)
Definition bar_series (f : Figure) : list (option string * list Rectangle) :=
  omap (fun a => match a with ABars l ps => Some (l, ps) | _ => None end)
       (artists_of f).

Definition line_series (f : Figure) : list Line2D :=
  omap (fun a => match a with ALine l => Some l | _ => None end) (artists_of f).

Definition annotation_texts (f : Figure) : list string :=
  omap (fun a => match a with AAnnotation t _ _ => Some t | _ => None end)
       (artists_of f).

Definition tables_of (f : Figure) : list Table :=
  omap (fun a => match a with ATable t => Some t | _ => None end) (artists_of f).

(** The number of data points drawn: bars and line vertices. *)
Definition data_points (f : Figure) : nat :=
  (list_sum (map (fun s => length (snd s)) (bar_series f))
   + list_sum (map (fun l => length (line_ydata l)) (line_series f)))%nat.

(** The centre of a bar on the x axis. *)
Definition bar_center (r : Rectangle) : float :=
  (rect_x r + rect_width r / 2)%float.

(** The category whose position on a categorical axis is exactly [x]. *)
Definition category_at (cats : list string) (x : float) : option string :=
  snd <$> List.find (fun ic => PrimFloat.eqb (float_of_Z (fst ic)) x) (enumerate cats).





(** The colour list each data chart writes out. *)
Definition palette : list string :=
  ["#2ecc71"; "#3498db"; "#2980b9"; "#e74c3c"; "#c0392b"].

(** A world where the output directory exists and holds files of other
    content at two of the artifact paths, and one more file. *)
Definition rerun_world : World :=
  {| fs := {| fs_dirs := {[ "figures" ]};
              fs_files := {[ "figures/fig1_llm_calls_comparison.png" := Blob "old png";
                             "figures/fig7_summary_table.pdf" := Blob "old pdf";
                             "figures/notes.txt" := Blob "keep" ]};
              fs_denied := ∅ |};
     console := []; plt_figs := []; rc_styles := []; rcParams := [] |}.

(** A world where the output directory exists and the PNG of the third
    figure may not be written. *)
Definition denied_world : World :=
  {| fs := {| fs_dirs := {[ "figures" ]}; fs_files := ∅;
              fs_denied := {[ "figures/fig3_cost_comparison.png" ]} |};
     console := []; plt_figs := []; rc_styles := []; rcParams := [] |}.

(** The base names of the builders with the figures they draw. *)
Definition stages : list (string * Figure) :=
  map (fun nb => (fst nb, figure_of (fst nb) (snd nb))) figure_builders.

Definition save_stage (g : Globals) (nF : string * Figure) : M unit :=
  save_pair g (fst nF) (snd nF).

Definition stage_artifacts (g : Globals) (w : World) (l : list (string * Figure))
  : list (string * FileData) :=
  concat (map (fun nF => artifacts_of g w (fst nF) (snd nF)) l).

Definition stage_paths (g : Globals) (l : list (string * Figure)) : list string :=
  concat (map (fun nF => [png_path g (fst nF); pdf_path g (fst nF)]) l).

Definition progress_lines (l : list (string * Figure)) : list string :=
  map (fun nF => "✓ Generated: " ++ fst nF) l.

(** The world after the stages [l] have all been saved from [w]. *)
Definition after_stages (g : Globals) (w : World) (l : list (string * Figure)) : World :=
  {| fs := {| fs_dirs := fs_dirs (fs w);
              fs_files := write_all (stage_artifacts g w l) (fs_files (fs w));
              fs_denied := fs_denied (fs w) |};
     console := console w ++ progress_lines l;
     plt_figs := plt_figs w; rc_styles := rc_styles w; rcParams := rcParams w |}.

(** The world a run ends in, returned or raised. *)
Definition world_of {A : Type} (r : Result A) : World :=
  match r with Ok _ w => w | Raise _ w => w end.

(** The two builders that chart [CATEGORY_DATA]. *)
Definition category_charts : list (string * (Globals -> M unit)) :=
  [("fig2_calls_by_category", fig2_calls_by_category);
   ("fig6_scaling_line", fig6_scaling_line)].

(** Label and values of every series, in the order drawn: the heights
    of a container of bars, the vertices of a line. *)
Definition series_values (f : Figure) : list (string * list float) :=
  omap (fun a => match a with
                 | ABars l ps => Some (default "" l, map rect_height ps)
                 | ALine l => Some (line_label l, line_ydata l)
                 | _ => None
                 end) (artists_of f).




Definition annotations_of (f : Figure) : list (string * pyval) :=
  omap (fun a => match a with AAnnotation t xy _ => Some (t, xy) | _ => None end)
       (artists_of f).

(** The only axes of a one-axes figure. *)
Definition the_axes (f : Figure) : Axes := default plt.empty_axes (head (fig_axes f)).

(** A row of [OVERALL_DATA] under the formats the bar charts label their
    bars with ([.1f], [,], [$] and [.4f]) and success as [<int>%]. *)
Definition summary_cells (r : MetricRow) : list string :=
  [format_f 1 (calls r); format_comma (tokens r); "$" ++ format_f 4 (cost r);
   str_int (success r) ++ "%"].

Definition banner : string := nl ++ "📊 Generating ICML 2026 Paper Figures..." ++ nl.



(** A world where a regular file sits where the output directory should
    be. *)
Definition blocked_world : World :=
  {| fs := {| fs_dirs := ∅; fs_files := {[ "figures" := Blob "not a directory" ]};
              fs_denied := ∅ |};
     console := []; plt_figs := []; rc_styles := []; rcParams := [] |}.

(** The world after [print(banner)]. *)
Definition with_banner (w : World) : World :=
  {| fs := fs w; console := console w ++ [banner]; plt_figs := plt_figs w;
     rc_styles := rc_styles w; rcParams := rcParams w |}.

(** The module namespace with both data tables rebound. *)
Definition with_tables (od : list (string * MetricRow))
    (cd : list (string * list (string * float))) (g : Globals) : Globals :=
  {| COLORS := COLORS g; OVERALL_DATA := od; CATEGORY_DATA := cd;
     OUTPUT_DIR := OUTPUT_DIR g |}.


(** The figure a builder saves as its PNG when run in [ready_world] under
    the namespace [g]. *)
Definition figure_drawn (g : Globals) (name : string) (b : Globals -> M unit) : Figure :=
  match b g ready_world with
  | Ok _ w => default (plt.new_figure 0 []) (rendered w (png_path g name))
  | Raise _ _ => plt.new_figure 0 []
  end.

(** The module with both of its data tables empty. *)
Definition empty_tables : Globals := with_tables [] [] module_globals.

(** The five methods the category charts write out. *)
Definition chart_methods : list string :=
  ["Manifesto"; "OpenAI-mini"; "OpenAI-4o"; "ReAct-mini"; "ReAct-4o"].

(** A category table whose second category has no value for Manifesto. *)
Definition ragged_tables : Globals :=
  with_tables []
    [("Simple", [("Manifesto", 2.0); ("ReAct-4o", 2.1)]%float);
     ("Bulk", [("ReAct-4o", 3.3)]%float)]
    module_globals.

(** Order of strings by code points, as Python compares them. *)
Definition str_le (a b : string) : Prop := String.leb a b = true.

(** What lies directly in the output directory. *)
Definition output_entries (s : FileSystem) : list string :=
  omap (os.entry_of "figures") (elements (fs_dirs s ∪ dom (fs_files s))).

(** The two closing lines of [main], and a line of its listing. *)
Definition saved_line : string := nl ++ "✅ All figures saved to " ++ "figures" ++ "/".
Definition files_header : string := nl ++ "Generated files:".
Definition listing_line (name : string) : string := "  - " ++ name.

(** * Theorems *)

(** ** Sanity checks of the formatting functions *)

Example format_f_samples :
  format_f 1 2.0 = "2.0" /\ format_f 1 5.6 = "5.6" /\
  format_f 4 0.0002 = "0.0002" /\ format_f 4 0.0131 = "0.0131" /\
  format_f 0 44.5 = "44" /\ format_f 0 45.5 = "46" /\
  format_f 1 0.25 = "0.2" /\ format_f 1 (-0.04) = "-0.0" /\
  format_f 2 1234.5 = "1234.50" /\ format_f 1 0.05 = "0.1".
Proof. vm_compute. repeat split. Qed.

Example format_comma_samples :
  format_comma 850 = "850" /\ format_comma 6113 = "6,113" /\
  format_comma 1234567 = "1,234,567" /\ format_comma (-1000) = "-1,000" /\
  format_comma 0 = "0" /\ format_comma 100000 = "100,000".
Proof. vm_compute. repeat split. Qed.

Example lower_sample : lower "OpenAI-4o" = "openai-4o".
Proof. reflexivity. Qed.

Example split_samples :
  os.split "figures/fig1.png" = ("figures", "fig1.png") /\
  os.split "figures" = ("", "figures") /\
  os.split "a/b/c" = ("a/b", "c").
Proof. vm_compute. repeat split. Qed.

Example sorted_sample : sorted ["b.png"; "a.pdf"; "a.png"; "B"] = ["B"; "a.pdf"; "a.png"; "b.png"].
Proof. vm_compute. reflexivity. Qed.

(** ** Every builder draws its figure and then saves it twice *)

Ltac step_write :=
  match goal with
  | |- context [os.write_file ?p ?d ?s] =>
      destruct (os.write_file p d s); lazy -[os.write_file]
  end.

(** Runs a builder of the module symbolically, in any world, up to the
    two writes, and compares with [save_pair]. *)
Ltac run_builder :=
  match goal with
  | |- _ = save_pair _ _ ?f _ =>
      let F := fresh "F" in set (F := f); vm_compute in F; subst F
  end;
  lazy -[os.write_file]; repeat step_write; reflexivity.

Lemma fig1_run (w : World) :
  fig1_llm_calls_comparison module_globals w
  = save_pair module_globals "fig1_llm_calls_comparison" (figure_of "fig1_llm_calls_comparison" fig1_llm_calls_comparison) w.
Proof. run_builder. Qed.

Lemma fig2_run (w : World) :
  fig2_calls_by_category module_globals w
  = save_pair module_globals "fig2_calls_by_category" (figure_of "fig2_calls_by_category" fig2_calls_by_category) w.
Proof. run_builder. Qed.

Lemma fig3_run (w : World) :
  fig3_cost_comparison module_globals w
  = save_pair module_globals "fig3_cost_comparison" (figure_of "fig3_cost_comparison" fig3_cost_comparison) w.
Proof. run_builder. Qed.

Lemma fig4_run (w : World) :
  fig4_token_efficiency module_globals w
  = save_pair module_globals "fig4_token_efficiency" (figure_of "fig4_token_efficiency" fig4_token_efficiency) w.
Proof. run_builder. Qed.

Lemma fig5_run (w : World) :
  fig5_architecture_comparison module_globals w
  = save_pair module_globals "fig5_architecture_comparison" (figure_of "fig5_architecture_comparison" fig5_architecture_comparison) w.
Proof. run_builder. Qed.

Lemma fig6_run (w : World) :
  fig6_scaling_line module_globals w
  = save_pair module_globals "fig6_scaling_line" (figure_of "fig6_scaling_line" fig6_scaling_line) w.
Proof. run_builder. Qed.

Lemma fig7_run (w : World) :
  fig7_summary_table module_globals w
  = save_pair module_globals "fig7_summary_table" (figure_of "fig7_summary_table" fig7_summary_table) w.
Proof. run_builder. Qed.

Ltac pick_builder H lem :=
  cbv [figure_builders lookup list_lookup] in H; injection H as <- <-; apply lem.

Lemma builder_run (i : nat) (name : string) (b : Globals -> M unit) (w : World) :
  figure_builders !! i = Some (name, b) ->
  b module_globals w = save_pair module_globals name (figure_of name b) w.
Proof.
  intros H.
  destruct i as [|i]; [pick_builder H fig1_run|].
  destruct i as [|i]; [pick_builder H fig2_run|].
  destruct i as [|i]; [pick_builder H fig3_run|].
  destruct i as [|i]; [pick_builder H fig4_run|].
  destruct i as [|i]; [pick_builder H fig5_run|].
  destruct i as [|i]; [pick_builder H fig6_run|].
  destruct i as [|i]; [pick_builder H fig7_run|].
  discriminate H.
Qed.

(** ** The file system *)

Lemma write_file_writable (p : string) (d : FileData) (s : FileSystem) :
  writable s p = true ->
  os.write_file p d s
  = inl {| fs_dirs := fs_dirs s; fs_files := <[ p := d ]> (fs_files s);
           fs_denied := fs_denied s |}.
Proof.
  unfold writable, os.write_file, os.parent_error. intros H.
  destruct (String.eqb p ""); [discriminate|].
  destruct (String.eqb (os.dirname p) "" || os.isdir s (os.dirname p)); [|discriminate].
  destruct (os.isdir s p); [discriminate|].
  destruct (bool_decide (p ∈ fs_denied s)); [discriminate|].
  reflexivity.
Qed.

Lemma write_file_inl (p : string) (d : FileData) (s s' : FileSystem) :
  os.write_file p d s = inl s' ->
  writable s p = true
  /\ s' = {| fs_dirs := fs_dirs s; fs_files := <[ p := d ]> (fs_files s);
             fs_denied := fs_denied s |}.
Proof.
  unfold writable, os.write_file, os.parent_error.
  destruct (String.eqb p ""); [discriminate|].
  destruct (String.eqb (os.dirname p) "" || os.isdir s (os.dirname p)).
  - destruct (os.isdir s p); [discriminate|].
    destruct (bool_decide (p ∈ fs_denied s)); [discriminate|].
    intros [= <-]. split; reflexivity.
  - destruct (os.isfile s (os.dirname p)); discriminate.
Qed.

Lemma write_file_inr (p : string) (d : FileData) (s : FileSystem) (e : exn) :
  os.write_file p d s = inr e -> writable s p = false /\ is_OSError e = true.
Proof.
  unfold writable, os.write_file, os.parent_error.
  destruct (String.eqb p ""); [intros [= <-]; split; reflexivity|].
  destruct (String.eqb (os.dirname p) "" || os.isdir s (os.dirname p)).
  - destruct (os.isdir s p); [intros [= <-]; split; reflexivity|].
    destruct (bool_decide (p ∈ fs_denied s)); [intros [= <-]; split; reflexivity|].
    discriminate.
  - destruct (os.isfile s (os.dirname p)); intros [= <-]; split; reflexivity.
Qed.

(** Whether a path is writable depends on the directories and on the
    denied paths only. *)
Lemma writable_same_dirs (s s' : FileSystem) (p : string) :
  fs_dirs s' = fs_dirs s -> fs_denied s' = fs_denied s ->
  writable s' p = writable s p.
Proof.
  intros Hd Hn. unfold writable, os.isdir. rewrite Hd, Hn. reflexivity.
Qed.

(** ** Sequencing *)

Lemma bind_Ok {A B : Type} (m : M A) (k : A -> M B) (w w' : World) (a : A) :
  m w = Ok a w' -> (m ≫= k) w = k a w'.
Proof. intros H. unfold mbind, M_bind. rewrite H. reflexivity. Qed.

Lemma bind_Raise {A B : Type} (m : M A) (k : A -> M B) (w w' : World) (e : exn) :
  m w = Raise e w' -> (m ≫= k) w = Raise e w'.
Proof. intros H. unfold mbind, M_bind. rewrite H. reflexivity. Qed.

Lemma bind_Ok_inv {A B : Type} (m : M A) (k : A -> M B) (w w2 : World) (b : B) :
  (m ≫= k) w = Ok b w2 -> exists a w1, m w = Ok a w1 /\ k a w1 = Ok b w2.
Proof.
  unfold mbind, M_bind. destruct (m w) as [a w1|e w1]; [|discriminate].
  intros H. exists a, w1. split; [reflexivity|exact H].
Qed.

Lemma bind_assoc {A B C : Type} (m : M A) (k : A -> M B) (h : B -> M C) (w : World) :
  ((m ≫= k) ≫= h) w = (m ≫= (fun a => k a ≫= h)) w.
Proof. unfold mbind, M_bind. destruct (m w); reflexivity. Qed.

Lemma bind_ext {A B : Type} (m : M A) (k k' : A -> M B) (w : World) :
  (forall a w', k a w' = k' a w') -> (m ≫= k) w = (m ≫= k') w.
Proof. intros H. unfold mbind, M_bind. destruct (m w); [apply H|reflexivity]. Qed.

Lemma for_each_app {A : Type} (l1 l2 : list A) (f : A -> M unit) (w : World) :
  for_each (l1 ++ l2) f w = (for_each l1 f ;; for_each l2 f) w.
Proof.
  revert w. induction l1 as [|x l1 IH]; intros w.
  - reflexivity.
  - simpl. rewrite bind_assoc. apply bind_ext. intros [] w'. apply IH.
Qed.

(** A loop whose bodies run as the bodies of another loop runs as it. *)
Lemma for_each_map_ext {A B : Type} (h : A -> B) (l : list A)
    (f : A -> M unit) (f' : B -> M unit) (w : World) :
  (forall j x w', l !! j = Some x -> f x w' = f' (h x) w') ->
  for_each l f w = for_each (map h l) f' w.
Proof.
  revert w. induction l as [|x l IH]; intros w H.
  - reflexivity.
  - simpl. unfold mbind, M_bind. rewrite (H 0%nat x w eq_refl).
    destruct (f' (h x) w) as [[] w1|e w1]; [|reflexivity].
    apply IH. intros j y w' Hj. exact (H (S j) y w' Hj).
Qed.

(** A loop raises exactly when one of its bodies does, after the bodies
    before it have run, and nothing runs afterwards. *)
Lemma for_each_raise_at {A : Type} (l : list A) (f : A -> M unit)
    (i : nat) (x : A) (w w0 w1 : World) (e : exn) :
  l !! i = Some x ->
  for_each (take i l) f w = Ok tt w0 ->
  f x w0 = Raise e w1 ->
  for_each l f w = Raise e w1.
Proof.
  intros Hx Hpre Hf.
  rewrite <- (take_drop_middle l i x Hx), for_each_app.
  rewrite (bind_Ok _ _ _ _ _ Hpre). simpl.
  apply bind_Raise. exact Hf.
Qed.

Lemma for_each_raise_inv {A : Type} (l : list A) (f : A -> M unit)
    (w w1 : World) (e : exn) :
  for_each l f w = Raise e w1 ->
  exists i x w0, l !! i = Some x /\ for_each (take i l) f w = Ok tt w0
                 /\ f x w0 = Raise e w1.
Proof.
  revert w. induction l as [|x l IH]; intros w H.
  - discriminate H.
  - simpl in H. unfold mbind, M_bind in H.
    destruct (f x w) as [[] w'|e' w'] eqn:Hx.
    + destruct (IH w' H) as (i & y & w0 & Hy & Hpre & Hf).
      exists (S i), y, w0. split; [exact Hy|]. split; [|exact Hf].
      simpl. rewrite (bind_Ok _ _ _ _ _ Hx). exact Hpre.
    + injection H as -> ->. exists 0%nat, x, w.
      split; [reflexivity|]. split; [reflexivity|exact Hx].
Qed.

(** ** Saving a figure, and saving a list of them *)

Lemma after_stages_nil (g : Globals) (w : World) : after_stages g w [] = w.
Proof.
  destruct w as [[d f n] c p st rc]. unfold after_stages. simpl.
  rewrite app_nil_r. reflexivity.
Qed.

Lemma save_pair_Ok_inv (g : Globals) (name : string) (F : Figure) (w w' : World) :
  save_pair g name F w = Ok tt w' ->
  writable (fs w) (png_path g name) = true
  /\ writable (fs w) (pdf_path g name) = true
  /\ w' = after_stages g w [(name, F)].
Proof.
  unfold save_pair. intros H.
  destruct (os.write_file (png_path g name) _ (fs w)) as [s1|e] eqn:H1; [|discriminate].
  destruct (os.write_file (pdf_path g name) _ s1) as [s2|e] eqn:H2; [|discriminate].
  apply write_file_inl in H1 as [W1 ->]. apply write_file_inl in H2 as [W2 ->].
  injection H as <-. split; [exact W1|]. split; [|reflexivity].
  rewrite <- W2. symmetry. apply writable_same_dirs; reflexivity.
Qed.

Lemma save_pair_writable (g : Globals) (name : string) (F : Figure) (w : World) :
  writable (fs w) (png_path g name) = true ->
  writable (fs w) (pdf_path g name) = true ->
  save_pair g name F w = Ok tt (after_stages g w [(name, F)]).
Proof.
  intros W1 W2. unfold save_pair.
  rewrite (write_file_writable _ _ _ W1).
  rewrite write_file_writable; [reflexivity|].
  rewrite <- W2. apply writable_same_dirs; reflexivity.
Qed.

(** A builder's tail raises only an [OSError], at a path that is not
    writable; it prints nothing then, touches no file but its own PNG,
    and leaves the figure open. *)
Lemma save_pair_Raise_inv (g : Globals) (name : string) (F : Figure)
    (w w1 : World) (e : exn) :
  save_pair g name F w = Raise e w1 ->
  is_OSError e = true
  /\ (writable (fs w) (png_path g name) = false
      \/ writable (fs w) (pdf_path g name) = false)
  /\ console w1 = console w
  /\ plt_figs w1 = F :: plt_figs w
  /\ forall q, q <> png_path g name -> fs_files (fs w1) !! q = fs_files (fs w) !! q.
Proof.
  unfold save_pair. intros H.
  destruct (os.write_file (png_path g name) _ (fs w)) as [s1|e1] eqn:H1.
  - destruct (os.write_file (pdf_path g name) _ s1) as [s2|e2] eqn:H2; [discriminate|].
    injection H as <- <-.
    apply write_file_inl in H1 as [W1 ->]. apply write_file_inr in H2 as [W2 He].
    split; [exact He|]. split.
    { right. rewrite <- W2. symmetry. apply writable_same_dirs; reflexivity. }
    split; [reflexivity|]. split; [reflexivity|].
    intros q Hq. simpl. apply lookup_insert_ne. congruence.
  - injection H as <- <-. apply write_file_inr in H1 as [W1 He].
    split; [exact He|]. split; [left; exact W1|].
    split; [reflexivity|]. split; reflexivity.
Qed.

Lemma after_stages_cons (g : Globals) (w : World) (x : string * Figure)
    (l : list (string * Figure)) :
  after_stages g (after_stages g w [x]) l = after_stages g w (x :: l).
Proof.
  unfold after_stages, stage_artifacts, progress_lines, write_all, artifacts_of.
  simpl. rewrite <- app_assoc. reflexivity.
Qed.

Lemma stages_Ok_inv (g : Globals) (l : list (string * Figure)) (w w' : World) :
  for_each l (save_stage g) w = Ok tt w' ->
  w' = after_stages g w l
  /\ Forall (fun p => writable (fs w) p = true) (stage_paths g l).
Proof.
  revert w. induction l as [|x l IH]; intros w H.
  - injection H as <-. rewrite after_stages_nil. split; [reflexivity|constructor].
  - simpl in H. apply bind_Ok_inv in H as ([] & w1 & Hx & Hl).
    apply save_pair_Ok_inv in Hx as (W1 & W2 & ->).
    apply IH in Hl as [-> Hall]. rewrite after_stages_cons. split; [reflexivity|].
    unfold stage_paths. simpl. constructor; [exact W1|]. constructor; [exact W2|].
    eapply Forall_impl; [exact Hall|]. intros p Hp. rewrite <- Hp. symmetry.
    apply writable_same_dirs; reflexivity.
Qed.

Lemma stages_writable (g : Globals) (l : list (string * Figure)) (w : World) :
  Forall (fun p => writable (fs w) p = true) (stage_paths g l) ->
  for_each l (save_stage g) w = Ok tt (after_stages g w l).
Proof.
  revert w. induction l as [|x l IH]; intros w H.
  - rewrite after_stages_nil. reflexivity.
  - unfold stage_paths in H. simpl in H.
    apply Forall_cons in H as [W1 H]. apply Forall_cons in H as [W2 H].
    change (for_each (x :: l) (save_stage g) w)
      with ((save_stage g x ;; for_each l (save_stage g)) w).
    rewrite (bind_Ok (save_stage g x) _ w _ tt (save_pair_writable g _ _ w W1 W2)).
    rewrite IH; [rewrite after_stages_cons; reflexivity|].
    eapply Forall_impl; [exact H|]. intros p Hp. rewrite <- Hp.
    apply writable_same_dirs; reflexivity.
Qed.

(** The builders of the module, run in turn, are the stages saved in
    turn. *)
Lemma builders_as_stages (i : nat) (w : World) :
  for_each (take i figure_builders) (fun nb => snd nb module_globals) w
  = for_each (take i stages) (save_stage module_globals) w.
Proof.
  unfold stages. change (take i (map ?f figure_builders)) with (take i (f <$> figure_builders)). rewrite <- fmap_take.
  change (?f <$> take i figure_builders) with (map f (take i figure_builders)).
  apply for_each_map_ext. intros j [name b] w' Hj.
  apply lookup_take_Some in Hj as [Hj _].
  exact (builder_run j name b w' Hj).
Qed.

(** ** [ensure_output_dir] and [main] *)

Lemma ensure_output_dir_run (w : World) :
  ensure_output_dir module_globals w
  = if os.isdir (fs w) "figures" then Ok tt w
    else if os.isfile (fs w) "figures" then Raise (FileExistsError "figures") w
    else if bool_decide ("figures" ∈ fs_denied (fs w))
         then Raise (PermissionError "figures") w
         else Ok tt (set_fs {| fs_dirs := {[ "figures" ]} ∪ fs_dirs (fs w);
                               fs_files := fs_files (fs w);
                               fs_denied := fs_denied (fs w) |} w).
Proof.
  unfold ensure_output_dir, os.makedirs.
  cbn -[os.isdir os.isfile bool_decide elem_of union singleton].
  unfold mbind, M_bind, os.lift, os.mkdir, os.path_exists, os.parent_error.
  cbn -[os.isdir os.isfile bool_decide elem_of union singleton].
  destruct (os.isdir (fs w) "figures") eqn:Hd;
    cbn -[os.isdir os.isfile bool_decide elem_of union singleton].
  - rewrite Hd. reflexivity.
  - destruct (os.isfile (fs w) "figures");
      cbn -[os.isdir os.isfile bool_decide elem_of union singleton].
    + rewrite Hd. reflexivity.
    + destruct (bool_decide _);
        cbn -[os.isdir os.isfile bool_decide elem_of union singleton];
        try rewrite Hd; reflexivity.
Qed.

Lemma isdir_added (s : FileSystem) (p : string) (files : gmap string FileData)
    (denied : gset string) :
  p <> "" ->
  os.isdir {| fs_dirs := {[ p ]} ∪ fs_dirs s; fs_files := files; fs_denied := denied |} p
  = true.
Proof.
  intros Hp. unfold os.isdir. simpl.
  apply andb_true_intro. split.
  - apply negb_true_iff, String.eqb_neq. exact Hp.
  - apply bool_decide_eq_true. set_solver.
Qed.

(** After [ensure_output_dir] has returned, the directory is there, and
    nothing else has changed. *)
Lemma ensure_output_dir_Ok_inv (w w0 : World) :
  ensure_output_dir module_globals w = Ok tt w0 ->
  os.isdir (fs w0) "figures" = true
  /\ fs_files (fs w0) = fs_files (fs w)
  /\ fs_denied (fs w0) = fs_denied (fs w)
  /\ fs_dirs (fs w) ⊆ fs_dirs (fs w0)
  /\ console w0 = console w /\ plt_figs w0 = plt_figs w
  /\ rc_styles w0 = rc_styles w /\ rcParams w0 = rcParams w.
Proof.
  rewrite ensure_output_dir_run.
  destruct (os.isdir (fs w) "figures") eqn:Hd.
  - intros [= <-]. repeat split; try reflexivity; exact Hd.
  - destruct (os.isfile (fs w) "figures"); [discriminate|].
    destruct (bool_decide _); [discriminate|].
    intros [= <-]. simpl. repeat split; try reflexivity.
    + apply isdir_added. discriminate.
    + set_solver.
Qed.

Lemma for_each_print (l : list string) (h : string -> string) (w : World) :
  exists w', for_each l (fun f => print (h f)) w = Ok tt w'
    /\ fs w' = fs w /\ console w' = (console w ++ map h l)%list
    /\ plt_figs w' = plt_figs w.
Proof.
  revert w. induction l as [|x l IH]; intros w.
  - exists w. simpl. rewrite app_nil_r. repeat split; reflexivity.
  - destruct (IH {| fs := fs w; console := console w ++ [h x];
                    plt_figs := plt_figs w; rc_styles := rc_styles w;
                    rcParams := rcParams w |}) as (w' & Hrun & Hfs & Hc & Hp).
    exists w'. simpl in *. split; [exact Hrun|]. split; [exact Hfs|].
    split; [|exact Hp]. rewrite Hc, <- app_assoc. reflexivity.
Qed.

(** The listing at the end of [main] cannot fail once the directory is
    there, and touches only the console. *)
Lemma main_listing_Ok (w : World) :
  os.isdir (fs w) "figures" = true ->
  exists w', main_listing module_globals w = Ok tt w'
    /\ fs w' = fs w /\ plt_figs w' = plt_figs w.
Proof.
  intros Hd. unfold main_listing, os.listdir.
  cbn -[os.isdir sorted elements dom union for_each].
  unfold mbind at 1 2 3, M_bind at 1 2 3, print at 1 2.
  cbn -[os.isdir sorted elements dom union for_each].
  rewrite Hd.
  match goal with
  | |- context [for_each ?l _ ?w0] =>
      destruct (for_each_print l (fun name => "  - " ++ name) w0)
        as (w' & Hrun & Hfs & _ & Hp)
  end.
  exists w'. split; [exact Hrun|]. split; [exact Hfs|exact Hp].
Qed.

Lemma main_split (w : World) :
  main module_globals w
  = (main_before module_globals 7 ;; main_listing module_globals) w.
Proof.
  unfold main, main_before, main_listing.
  cbn [take figure_builders for_each snd].
  symmetry.
  repeat (rewrite bind_assoc; apply bind_ext; intros [] ?).
  reflexivity.
Qed.

Lemma main_before_stages (i : nat) (w : World) :
  main_before module_globals i w
  = (ensure_output_dir module_globals ;;
     print (nl ++ "📊 Generating ICML 2026 Paper Figures..." ++ nl) ;;
     for_each (take i stages) (save_stage module_globals)) w.
Proof.
  unfold main_before. apply bind_ext. intros [] w1. apply bind_ext. intros [] w2.
  apply builders_as_stages.
Qed.

(** ** Paths and the files written *)

Lemma string_app_inv_head (s a b : string) : s ++ a = s ++ b -> a = b.
Proof.
  induction s as [|c s IH]; simpl; intros H; [exact H|].
  injection H as H. exact (IH H).
Qed.

Lemma png_ne_pdf (g : Globals) (name : string) : png_path g name <> pdf_path g name.
Proof.
  unfold png_path, pdf_path. intros H.
  do 3 apply string_app_inv_head in H. discriminate H.
Qed.

Lemma write_all_lookup_notin (files : list (string * FileData))
    (m : gmap string FileData) (q : string) :
  q ∉ map fst files -> write_all files m !! q = m !! q.
Proof.
  revert m. induction files as [|[p d] files IH]; intros m Hq; [reflexivity|].
  simpl in Hq. apply not_elem_of_cons in Hq as [Hne Hq].
  unfold write_all. simpl. fold (write_all files (<[ p := d ]> m)).
  rewrite (IH _ Hq). apply lookup_insert_ne. congruence.
Qed.

Lemma write_all_lookup_in (files : list (string * FileData))
    (m : gmap string FileData) (p : string) (d : FileData) :
  NoDup (map fst files) -> (p, d) ∈ files -> write_all files m !! p = Some d.
Proof.
  revert m. induction files as [|[p0 d0] files IH]; intros m Hnd Hin.
  - inversion Hin.
  - simpl in Hnd. apply NoDup_cons in Hnd as [Hp0 Hnd].
    unfold write_all. simpl. fold (write_all files (<[ p0 := d0 ]> m)).
    apply elem_of_cons in Hin as [[= -> ->]|Hin].
    + rewrite (write_all_lookup_notin _ _ _ Hp0). apply lookup_insert_eq.
    + apply IH; assumption.
Qed.

Lemma stage_artifacts_paths (g : Globals) (w : World) (l : list (string * Figure)) :
  map fst (stage_artifacts g w l) = stage_paths g l.
Proof.
  unfold stage_artifacts, stage_paths.
  induction l as [|x l IH]; [reflexivity|].
  simpl. rewrite IH. reflexivity.
Qed.

Lemma stage_artifact_in (g : Globals) (w : World) (l : list (string * Figure))
    (i : nat) (name : string) (F : Figure) (a : string * FileData) :
  l !! i = Some (name, F) ->
  a ∈ artifacts_of g w name F -> a ∈ stage_artifacts g w l.
Proof.
  revert i. unfold stage_artifacts.
  induction l as [|x l IH]; intros i Hi Ha; [discriminate Hi|].
  cbn [map concat]. apply elem_of_app. destruct i as [|i].
  - injection Hi as ->. left. exact Ha.
  - right. exact (IH i Hi Ha).
Qed.

Lemma stages_lookup (i : nat) (name : string) (b : Globals -> M unit) :
  figure_builders !! i = Some (name, b) ->
  stages !! i = Some (name, figure_of name b).
Proof.
  intros H. unfold stages.
  change (map ?f figure_builders) with (f <$> figure_builders).
  rewrite list_lookup_fmap, H. reflexivity.
Qed.

Lemma stage_paths_NoDup : NoDup (stage_paths module_globals stages).
Proof. apply (bool_decide_unpack _). vm_compute. reflexivity. Qed.

(** Every artifact path lies directly in the output directory. *)
Lemma stage_paths_in_figures :
  Forall (fun p => os.dirname p = "figures" /\ p <> "")
         (stage_paths module_globals stages).
Proof.
  unfold stage_paths, stages, png_path, pdf_path. simpl.
  repeat constructor; discriminate.
Qed.

(** The files a run of the module's builder leaves at its two paths. *)
Lemma builder_saved (i : nat) (name : string) (b : Globals -> M unit) (w w' : World) :
  figure_builders !! i = Some (name, b) ->
  b module_globals w = Ok tt w' ->
  w' = after_stages module_globals w [(name, figure_of name b)]
  /\ rendered w' (png_path module_globals name) = Some (figure_of name b)
  /\ rendered w' (pdf_path module_globals name) = Some (figure_of name b).
Proof.
  intros Hi H. rewrite (builder_run i name b w Hi) in H.
  apply save_pair_Ok_inv in H as (_ & _ & ->).
  split; [reflexivity|]. unfold rendered, after_stages, stage_artifacts, write_all.
  simpl. split.
  - rewrite lookup_insert_ne by (apply not_eq_sym, png_ne_pdf).
    rewrite lookup_insert_eq. reflexivity.
  - rewrite lookup_insert_eq. reflexivity.
Qed.

(** ** [main] from start to end *)

Lemma main_writable (w w0 : World) :
  ensure_output_dir module_globals w = Ok tt w0 ->
  Forall (fun p => writable (fs w0) p = true) (stage_paths module_globals stages) ->
  exists w', main module_globals w = Ok tt w'
    /\ fs w' = fs (after_stages module_globals w0 stages)
    /\ plt_figs w' = plt_figs w.
Proof.
  intros He Hw.
  destruct (ensure_output_dir_Ok_inv w w0 He) as (Hd & _ & _ & _ & _ & Hp & _).
  set (w1 := {| fs := fs w0;
                console := console w0
                  ++ [nl ++ "📊 Generating ICML 2026 Paper Figures..." ++ nl];
                plt_figs := plt_figs w0; rc_styles := rc_styles w0;
                rcParams := rcParams w0 |}).
  destruct (main_listing_Ok (after_stages module_globals w1 stages) Hd)
    as (w' & Hl & Hfs & Hfigs).
  exists w'. split; [|split; [exact Hfs|rewrite Hfigs; exact Hp]].
  rewrite main_split.
  rewrite (bind_Ok (main_before module_globals 7) _ w
             (after_stages module_globals w1 stages) tt); [exact Hl|].
  rewrite main_before_stages.
  rewrite (bind_Ok _ _ _ _ _ He).
  change (take 7 stages) with stages.
  exact (stages_writable module_globals stages w1 Hw).
Qed.

Lemma main_Ok_inv (w w' : World) :
  main module_globals w = Ok tt w' ->
  exists w0, ensure_output_dir module_globals w = Ok tt w0
    /\ fs w' = fs (after_stages module_globals w0 stages)
    /\ Forall (fun p => writable (fs w0) p = true) (stage_paths module_globals stages).
Proof.
  rewrite main_split. intros H.
  apply bind_Ok_inv in H as ([] & w2 & Hb & Hl).
  rewrite main_before_stages in Hb.
  apply bind_Ok_inv in Hb as ([] & w0 & He & Hb).
  apply bind_Ok_inv in Hb as ([] & w1 & Hp & Hs).
  injection Hp as <-.
  change (take 7 stages) with stages in Hs.
  apply stages_Ok_inv in Hs as [-> Hw].
  exists w0. split; [exact He|]. split; [|exact Hw].
  destruct (ensure_output_dir_Ok_inv w w0 He) as (Hd & _).
  match type of Hl with
  | main_listing _ ?wx = _ =>
      destruct (main_listing_Ok wx Hd) as (w3 & Hl' & Hfs & _)
  end.
  rewrite Hl in Hl'. injection Hl' as <-. exact Hfs.
Qed.

(** When a builder raises, [main] raises the same exception in the same
    world: nothing of [main] runs afterwards. *)
Lemma main_raise (w w0 w1 : World) (i : nat) (nb : string * (Globals -> M unit)) (e : exn) :
  figure_builders !! i = Some nb ->
  main_before module_globals i w = Ok tt w0 ->
  snd nb module_globals w0 = Raise e w1 ->
  main module_globals w = Raise e w1.
Proof.
  intros Hi Hb Hr. rewrite main_split. apply bind_Raise.
  unfold main_before in *.
  apply bind_Ok_inv in Hb as ([] & wa & He & Hb).
  apply bind_Ok_inv in Hb as ([] & wb & Hp & Hb).
  rewrite (bind_Ok _ _ _ _ _ He), (bind_Ok _ _ _ _ _ Hp).
  change (take 7 figure_builders) with figure_builders.
  exact (for_each_raise_at figure_builders _ i nb wb w0 w1 e Hi Hb Hr).
Qed.

(** Closed goals about what the script draws are settled by running the
    script: a list under [Forall] is evaluated and gone through, an
    equation is evaluated on both sides. *)
Ltac by_computation :=
  repeat match goal with
  | |- _ /\ _ => split
  | |- Forall _ [] => apply List.Forall_nil
  | |- Forall _ (_ :: _) => apply List.Forall_cons; [cbv beta|]
  | |- Forall _ ?l =>
      let v := eval vm_compute in l in
      replace l with v by (vm_compute; reflexivity)
  | |- _ = _ => vm_compute; reflexivity
  | |- _ <> _ => vm_compute; discriminate
  end.

(** * Properties stated by the specification *)

(** ** C1 *)

(** C1.  Each of the seven builders, [fig1_llm_calls_comparison] to
    [fig7_summary_table], run where its two paths can be written, returns
    and has written exactly two files: [figures/figN_<description>.png],
    a raster image, and the same base name with [.pdf], a vector image,
    both of the figure it drew; every other file and the directories are
    as before. *)
Theorem builders_write_two_files (i : nat) (name : string)
    (b : Globals -> M unit) (w : World) :
  figure_builders !! i = Some (name, b) ->
  writable (fs w) (png_path module_globals name) = true ->
  writable (fs w) (pdf_path module_globals name) = true ->
  String.prefix ("fig" ++ str_int (Z.of_nat (S i)) ++ "_") name = true
  /\ png_path module_globals name = "figures/" ++ name ++ ".png"
  /\ pdf_path module_globals name = "figures/" ++ name ++ ".pdf"
  /\ png_path module_globals name <> pdf_path module_globals name
  /\ exists w' F,
       b module_globals w = Ok tt w'
       /\ fs_files (fs w')
          = <[ pdf_path module_globals name := Image PDF (rcParams w) (rc_styles w) F ]>
              (<[ png_path module_globals name := Image PNG (rcParams w) (rc_styles w) F ]>
                 (fs_files (fs w)))
       /\ fs_dirs (fs w') = fs_dirs (fs w)
       /\ is_raster PNG = true /\ is_raster PDF = false.
Proof.
  intros Hi W1 W2. split.
  { do 7 (destruct i as [|i];
          [cbv [figure_builders lookup list_lookup] in Hi; injection Hi as <- _;
           vm_compute; reflexivity|]).
    discriminate Hi. }
  split; [reflexivity|]. split; [reflexivity|]. split; [apply png_ne_pdf|].
  exists (after_stages module_globals w [(name, figure_of name b)]), (figure_of name b).
  split.
  - rewrite (builder_run i name b w Hi). apply save_pair_writable; assumption.
  - repeat split; reflexivity.
Qed.

Lemma builders_write_two_files_witness :
  figure_builders !! 4%nat
    = Some ("fig5_architecture_comparison", fig5_architecture_comparison)
  /\ writable (fs ready_world)
       (png_path module_globals "fig5_architecture_comparison") = true
  /\ writable (fs ready_world)
       (pdf_path module_globals "fig5_architecture_comparison") = true
  /\ exists w' F,
       fig5_architecture_comparison module_globals ready_world = Ok tt w'
       /\ fs_files (fs w')
          = <[ "figures/fig5_architecture_comparison.pdf" := Image PDF [] [] F ]>
              (<[ "figures/fig5_architecture_comparison.png" := Image PNG [] [] F ]> ∅).
Proof.
  assert (H1 : figure_builders !! 4%nat
               = Some ("fig5_architecture_comparison", fig5_architecture_comparison))
    by reflexivity.
  assert (H2 : writable (fs ready_world)
                 (png_path module_globals "fig5_architecture_comparison") = true)
    by (vm_compute; reflexivity).
  assert (H3 : writable (fs ready_world)
                 (pdf_path module_globals "fig5_architecture_comparison") = true)
    by (vm_compute; reflexivity).
  split; [exact H1|]. split; [exact H2|]. split; [exact H3|].
  destruct (builders_write_two_files 4 _ _ ready_world H1 H2 H3)
    as (_ & _ & _ & _ & w' & F & Hrun & Hfiles & _).
  exists w', F. split; [exact Hrun|exact Hfiles].
Defined.

(** ** C2 *)

(** C2, as stated, fails.  With the PNG of the third figure write
    protected, [main] raises the [PermissionError] of that write: the
    console holds the banner and the two progress lines and no report of
    the failure, and none of the four remaining figures is generated. *)
Lemma write_failure_stops_run_counterexample :
  main module_globals denied_world
  = Raise (PermissionError "figures/fig3_cost_comparison.png")
          (world_of (main module_globals denied_world))
  /\ console (world_of (main module_globals denied_world))
     = [banner; "✓ Generated: fig1_llm_calls_comparison";
        "✓ Generated: fig2_calls_by_category"]
  /\ Forall (fun name =>
               fs_files (fs (world_of (main module_globals denied_world)))
                 !! png_path module_globals name = None
               /\ fs_files (fs (world_of (main module_globals denied_world)))
                    !! pdf_path module_globals name = None)
            ["fig4_token_efficiency"; "fig5_architecture_comparison";
             "fig6_scaling_line"; "fig7_summary_table"].
Proof. by_computation. Qed.

(** C2, amended.  A builder of the module raises only when one of its
    two writes fails, with an [OSError]; when that happens to the [i]-th
    builder, [main] raises the same exception and ends in the world that
    builder left: nothing is printed, no later figure is generated, and
    no file but the PNG of the failing figure differs from what the run
    had reached. *)
Theorem write_failure_aborts_run (w w0 w1 : World) (i : nat) (name : string)
    (b : Globals -> M unit) (e : exn) :
  figure_builders !! i = Some (name, b) ->
  main_before module_globals i w = Ok tt w0 ->
  b module_globals w0 = Raise e w1 ->
  main module_globals w = Raise e w1
  /\ is_OSError e = true
  /\ (writable (fs w0) (png_path module_globals name) = false
      \/ writable (fs w0) (pdf_path module_globals name) = false)
  /\ console w1 = console w0
  /\ forall q, q <> png_path module_globals name ->
               fs_files (fs w1) !! q = fs_files (fs w0) !! q.
Proof.
  intros Hi Hb Hr. split.
  - exact (main_raise w w0 w1 i (name, b) e Hi Hb Hr).
  - rewrite (builder_run i name b w0 Hi) in Hr.
    apply save_pair_Raise_inv in Hr as (He & Hw & Hc & _ & Hf).
    repeat split; assumption.
Qed.

Lemma write_failure_aborts_run_witness :
  figure_builders !! 2%nat = Some ("fig3_cost_comparison", fig3_cost_comparison)
  /\ main_before module_globals 2 denied_world
     = Ok tt (world_of (main_before module_globals 2 denied_world))
  /\ fig3_cost_comparison module_globals
       (world_of (main_before module_globals 2 denied_world))
     = Raise (PermissionError "figures/fig3_cost_comparison.png")
             (world_of (main module_globals denied_world))
  /\ main module_globals denied_world
     = Raise (PermissionError "figures/fig3_cost_comparison.png")
             (world_of (main module_globals denied_world)).
Proof.
  assert (H1 : figure_builders !! 2%nat
               = Some ("fig3_cost_comparison", fig3_cost_comparison))
    by reflexivity.
  assert (H2 : main_before module_globals 2 denied_world
               = Ok tt (world_of (main_before module_globals 2 denied_world)))
    by (vm_compute; reflexivity).
  assert (H3 : fig3_cost_comparison module_globals
                 (world_of (main_before module_globals 2 denied_world))
               = Raise (PermissionError "figures/fig3_cost_comparison.png")
                       (world_of (main module_globals denied_world)))
    by (vm_compute; reflexivity).
  split; [exact H1|]. split; [exact H2|]. split; [exact H3|].
  exact (proj1 (write_failure_aborts_run denied_world _ _ 2 _ _ _ H1 H2 H3)).
Defined.

(** ** C7 *)

Lemma ensure_output_dir_idempotent (w w0 : World) :
  ensure_output_dir module_globals w = Ok tt w0 ->
  ensure_output_dir module_globals w0 = Ok tt w0.
Proof.
  intros H. apply ensure_output_dir_Ok_inv in H as (Hd & _).
  rewrite ensure_output_dir_run, Hd. reflexivity.
Qed.

(** C7.  With [figures] already a directory, whatever it holds,
    [ensure_output_dir] returns without error and changes nothing; and
    when no artifact path is itself a directory or write protected,
    [main] returns, every one of the fourteen artifact paths then holds
    the figure of this run, whatever it held before, and every other
    file is as it was. *)
Theorem rerun_overwrites_artifacts (w : World) :
  os.isdir (fs w) "figures" = true ->
  Forall (fun p => os.isdir (fs w) p = false /\ p ∉ fs_denied (fs w))
         (stage_paths module_globals stages) ->
  ensure_output_dir module_globals w = Ok tt w
  /\ exists w',
       main module_globals w = Ok tt w'
       /\ (forall i name b, figure_builders !! i = Some (name, b) ->
             fs_files (fs w') !! png_path module_globals name
             = Some (Image PNG (rcParams w) (rc_styles w) (figure_of name b))
             /\ fs_files (fs w') !! pdf_path module_globals name
                = Some (Image PDF (rcParams w) (rc_styles w) (figure_of name b)))
       /\ (forall q, q ∉ stage_paths module_globals stages ->
             fs_files (fs w') !! q = fs_files (fs w) !! q)
       /\ fs_dirs (fs w') = fs_dirs (fs w).
Proof.
  intros Hd Hfree.
  assert (He : ensure_output_dir module_globals w = Ok tt w)
    by (rewrite ensure_output_dir_run, Hd; reflexivity).
  split; [exact He|].
  assert (Hw : Forall (fun p => writable (fs w) p = true)
                      (stage_paths module_globals stages)).
  { pose proof stage_paths_in_figures as Hin.
    induction Hin as [|p l [Hp Hne] Hin IH]; [constructor|].
    apply Forall_cons in Hfree as [[Hnd Hden] Hfree].
    constructor; [|exact (IH Hfree)].
    unfold writable. rewrite Hp, Hd, Hnd.
    apply String.eqb_neq in Hne. rewrite Hne.
    rewrite bool_decide_eq_false_2 by exact Hden. reflexivity. }
  destruct (main_writable w w He Hw) as (w' & Hrun & Hfs & _).
  exists w'. split; [exact Hrun|]. rewrite Hfs.
  unfold after_stages. cbn [fs fs_files fs_dirs].
  split; [|split; [|reflexivity]].
  - intros i name b Hi. apply stages_lookup in Hi.
    split.
    + apply write_all_lookup_in.
      * rewrite stage_artifacts_paths. exact stage_paths_NoDup.
      * apply (stage_artifact_in _ _ _ i name (figure_of name b) _ Hi).
        unfold artifacts_of. apply list_elem_of_here.
    + apply write_all_lookup_in.
      * rewrite stage_artifacts_paths. exact stage_paths_NoDup.
      * apply (stage_artifact_in _ _ _ i name (figure_of name b) _ Hi).
        unfold artifacts_of. apply list_elem_of_further, list_elem_of_here.
  - intros q Hq. apply write_all_lookup_notin.
    rewrite stage_artifacts_paths. exact Hq.
Qed.

Lemma rerun_overwrites_artifacts_witness :
  os.isdir (fs rerun_world) "figures" = true
  /\ Forall (fun p => os.isdir (fs rerun_world) p = false
                      /\ p ∉ fs_denied (fs rerun_world))
            (stage_paths module_globals stages)
  /\ fs_files (fs rerun_world) !! "figures/fig1_llm_calls_comparison.png"
     = Some (Blob "old png")
  /\ exists w',
       main module_globals rerun_world = Ok tt w'
       /\ fs_files (fs w') !! "figures/fig1_llm_calls_comparison.png"
          = Some (Image PNG [] []
                    (figure_of "fig1_llm_calls_comparison" fig1_llm_calls_comparison))
       /\ fs_files (fs w') !! "figures/notes.txt" = Some (Blob "keep").
Proof.
  assert (H1 : os.isdir (fs rerun_world) "figures" = true)
    by (vm_compute; reflexivity).
  assert (H2 : Forall (fun p => os.isdir (fs rerun_world) p = false
                                /\ p ∉ fs_denied (fs rerun_world))
                      (stage_paths module_globals stages)).
  { unfold stage_paths, stages, png_path, pdf_path.
    cbn [map concat figure_builders fst snd app OUTPUT_DIR module_globals].
    repeat (apply Forall_cons; split;
            [split; [vm_compute; reflexivity|apply not_elem_of_empty]|]).
    apply Forall_nil. exact I. }
  assert (H3 : fs_files (fs rerun_world) !! "figures/notes.txt" = Some (Blob "keep"))
    by (vm_compute; reflexivity).
  split; [exact H1|]. split; [exact H2|]. split; [vm_compute; reflexivity|].
  destruct (rerun_overwrites_artifacts rerun_world H1 H2)
    as (_ & w' & Hrun & Hart & Hrest & _).
  exists w'. split; [exact Hrun|]. split.
  - exact (proj1 (Hart 0%nat "fig1_llm_calls_comparison" fig1_llm_calls_comparison eq_refl)).
  - rewrite Hrest; [exact H3|].
    apply (bool_decide_unpack _). vm_compute. reflexivity.
Defined.

(** ** C3 *)



(** ** C4 *)

(** C4.  The LLM-calls bar chart draws exactly five bars, the [i]-th
    centred on the [i]-th category of the axis, which is the [i]-th
    method of [OVERALL_DATA], and as high as that method's [calls]; the
    first bar, Manifesto's, has edge colour [#27ae60] and line width 3,
    every other bar edge colour [black] and line width 1.2. *)
Theorem fig1_five_bars_first_highlighted (w w' : World) :
  fig1_llm_calls_comparison module_globals w = Ok tt w' ->
  exists F bar0 others,
    rendered w' "figures/fig1_llm_calls_comparison.png" = Some F
    /\ rendered w' "figures/fig1_llm_calls_comparison.pdf" = Some F
    /\ bar_series F = [(None, bar0 :: others)]
    /\ length (bar0 :: others) = 5%nat
    /\ ax_xcategories (the_axes F) = keys (OVERALL_DATA module_globals)
    /\ ax_xcategories (the_axes F)
       = ["Manifesto"; "OpenAI-mini"; "OpenAI-4o"; "ReAct-mini"; "ReAct-4o"]
    /\ map bar_center (bar0 :: others) = [0; 1; 2; 3; 4]%float
    /\ map rect_height (bar0 :: others)
       = map (fun kv => calls (snd kv)) (OVERALL_DATA module_globals)
    /\ rect_edgecolor bar0 = "#27ae60" /\ rect_linewidth bar0 = 3%float
    /\ Forall (fun r => rect_edgecolor r = "black"
                        /\ rect_linewidth r = 1.2%float
                        /\ rect_edgecolor r <> rect_edgecolor bar0
                        /\ (rect_linewidth r <? rect_linewidth bar0)%float = true)
              others.
Proof.
  intros Hrun.
  destruct (builder_saved 0 _ _ w w' eq_refl Hrun) as (_ & Hpng & Hpdf).
  let v := eval vm_compute in
      (bar_series (figure_of "fig1_llm_calls_comparison" fig1_llm_calls_comparison)) in
  match v with
  | [(None, ?b0 :: ?rest)] =>
      exists (figure_of "fig1_llm_calls_comparison" fig1_llm_calls_comparison), b0, rest
  end.
  split; [exact Hpng|]. split; [exact Hpdf|]. by_computation.
Qed.

Lemma fig1_five_bars_first_highlighted_witness :
  fig1_llm_calls_comparison module_globals ready_world
  = Ok tt (world_of (fig1_llm_calls_comparison module_globals ready_world))
  /\ exists F bar0 others,
       rendered (world_of (fig1_llm_calls_comparison module_globals ready_world))
                "figures/fig1_llm_calls_comparison.png" = Some F
       /\ bar_series F = [(None, bar0 :: others)]
       /\ length (bar0 :: others) = 5%nat
       /\ rect_edgecolor bar0 = "#27ae60".
Proof.
  assert (H1 : fig1_llm_calls_comparison module_globals ready_world
               = Ok tt (world_of (fig1_llm_calls_comparison module_globals ready_world)))
    by (vm_compute; reflexivity).
  split; [exact H1|].
  destruct (fig1_five_bars_first_highlighted ready_world _ H1)
    as (F & bar0 & others & Hpng & _ & Hb & Hl & _ & _ & _ & _ & He & _).
  exists F, bar0, others. repeat split; assumption.
Defined.

(** ** C5 *)

(** C5.  With Manifesto's cost 0.0002 and ReAct-4o's 0.0089 in
    [OVERALL_DATA], the cost chart labels the bar on the Manifesto
    category, anchored at the top of that bar, with [$0.0002], and its
    last annotation reads [44x cheaper / than ReAct-4o]; the ratio of the
    two costs is 44.5, which Python shows as 44 with no decimals. *)
Theorem fig3_cost_label_and_ratio (w w' : World) :
  fig3_cost_comparison module_globals w = Ok tt w' ->
  exists F bar0 others,
    rendered w' "figures/fig3_cost_comparison.png" = Some F
    /\ rendered w' "figures/fig3_cost_comparison.pdf" = Some F
    /\ (cost <$> dict_get (OVERALL_DATA module_globals) "Manifesto") = Some 0.0002%float
    /\ (cost <$> dict_get (OVERALL_DATA module_globals) "ReAct-4o") = Some 0.0089%float
    /\ bar_series F = [(None, bar0 :: others)]
    /\ category_at (ax_xcategories (the_axes F)) (bar_center bar0) = Some "Manifesto"
    /\ annotations_of F !! 0%nat
       = Some ("$0.0002", VTuple [VFloat (bar_center bar0); VFloat (rect_height bar0)])
    /\ map fst (annotations_of F)
       = ["$0.0002"; "$0.0010"; "$0.0131"; "$0.0004"; "$0.0089";
          "44x cheaper" ++ nl ++ "than ReAct-4o"]
    /\ Exists (fun t => String.prefix "44x" t = true) (annotation_texts F)
    /\ format_f 1 (0.0089 / 0.0002) = "44.5"
    /\ format_f 0 (0.0089 / 0.0002) ++ "x" = "44x".
Proof.
  intros Hrun.
  destruct (builder_saved 2 _ _ w w' eq_refl Hrun) as (_ & Hpng & Hpdf).
  let v := eval vm_compute in
      (bar_series (figure_of "fig3_cost_comparison" fig3_cost_comparison)) in
  match v with
  | [(None, ?b0 :: ?rest)] =>
      exists (figure_of "fig3_cost_comparison" fig3_cost_comparison), b0, rest
  end.
  split; [exact Hpng|]. split; [exact Hpdf|].
  do 6 (split; [vm_compute; reflexivity|]).
  split; [|by_computation].
  let v := eval vm_compute in
      (annotation_texts (figure_of "fig3_cost_comparison" fig3_cost_comparison)) in
  replace (annotation_texts (figure_of "fig3_cost_comparison" fig3_cost_comparison))
    with v by (vm_compute; reflexivity).
  do 5 apply Exists_cons_tl. apply Exists_cons_hd. reflexivity.
Qed.

Lemma fig3_cost_label_and_ratio_witness :
  fig3_cost_comparison module_globals ready_world
  = Ok tt (world_of (fig3_cost_comparison module_globals ready_world))
  /\ exists F,
       rendered (world_of (fig3_cost_comparison module_globals ready_world))
                "figures/fig3_cost_comparison.png" = Some F
       /\ (fst <$> annotations_of F !! 0%nat) = Some "$0.0002".
Proof.
  assert (H1 : fig3_cost_comparison module_globals ready_world
               = Ok tt (world_of (fig3_cost_comparison module_globals ready_world)))
    by (vm_compute; reflexivity).
  split; [exact H1|].
  destruct (fig3_cost_label_and_ratio ready_world _ H1)
    as (F & bar0 & others & Hpng & _ & _ & _ & _ & _ & Ha & _).
  exists F. split; [exact Hpng|]. rewrite Ha. reflexivity.
Defined.

(** ** C10 *)

(** C10.  The summary table has one row per row of [OVERALL_DATA], in
    the same order: the row's first cell begins with the method's name,
    and its next four cells are the method's [calls] to one decimal, its
    [tokens] with thousands separators, [$] and its [cost] to four
    decimals, and its [success] followed by [%]. *)
Theorem fig7_table_matches_OVERALL_DATA (w w' : World) :
  fig7_summary_table module_globals w = Ok tt w' ->
  exists F t,
    rendered w' "figures/fig7_summary_table.png" = Some F
    /\ rendered w' "figures/fig7_summary_table.pdf" = Some F
    /\ tables_of F = [t]
    /\ length (tab_cellText t) = length (OVERALL_DATA module_globals)
    /\ map (fun cells => take 4 (drop 1 cells)) (tab_cellText t)
       = map (fun kv => summary_cells (snd kv)) (OVERALL_DATA module_globals)
    /\ Forall (fun kc => String.prefix (fst kc) (default "" (head (snd kc))) = true)
              (zip (keys (OVERALL_DATA module_globals)) (tab_cellText t))
    /\ take 5 (tab_colLabels t)
       = ["Method"; "LLM Calls"; "Tokens"; "Cost/Task"; "Success"].
Proof.
  intros Hrun.
  destruct (builder_saved 6 _ _ w w' eq_refl Hrun) as (_ & Hpng & Hpdf).
  let v := eval vm_compute in
      (tables_of (figure_of "fig7_summary_table" fig7_summary_table)) in
  match v with
  | [?t] => exists (figure_of "fig7_summary_table" fig7_summary_table), t
  end.
  split; [exact Hpng|]. split; [exact Hpdf|]. by_computation.
Qed.

Lemma fig7_table_matches_OVERALL_DATA_witness :
  fig7_summary_table module_globals ready_world
  = Ok tt (world_of (fig7_summary_table module_globals ready_world))
  /\ exists F t,
       rendered (world_of (fig7_summary_table module_globals ready_world))
                "figures/fig7_summary_table.png" = Some F
       /\ tables_of F = [t]
       /\ map (fun cells => take 4 (drop 1 cells)) (tab_cellText t)
          = map (fun kv => summary_cells (snd kv)) (OVERALL_DATA module_globals).
Proof.
  assert (H1 : fig7_summary_table module_globals ready_world
               = Ok tt (world_of (fig7_summary_table module_globals ready_world)))
    by (vm_compute; reflexivity).
  split; [exact H1|].
  destruct (fig7_table_matches_OVERALL_DATA ready_world _ H1)
    as (F & t & Hpng & _ & Ht & _ & Hc & _).
  exists F, t. repeat split; assumption.
Defined.

(** ** C6 *)








(** ** C9 *)







(** * Further properties of the script *)

(** ** How [main] can end *)


Lemma print_banner (w : World) : print banner w = Ok tt (with_banner w).
Proof. reflexivity. Qed.

(** [main] raises either because [ensure_output_dir] does, or because
    the save of one figure does after the figures before it were saved. *)
Lemma main_Raise_inv (w w1 : World) (e : exn) :
  main module_globals w = Raise e w1 ->
  ensure_output_dir module_globals w = Raise e w1
  \/ exists w0 i nF,
       ensure_output_dir module_globals w = Ok tt w0
       /\ stages !! i = Some nF
       /\ save_stage module_globals nF
            (after_stages module_globals (with_banner w0) (take i stages))
          = Raise e w1.
Proof.
  rewrite main_split. unfold mbind at 1, M_bind at 1.
  destruct (main_before module_globals 7 w) as [[] w2|e' w2] eqn:Hb.
  - intros Hl. exfalso.
    rewrite main_before_stages in Hb.
    apply bind_Ok_inv in Hb as ([] & w0 & He & Hb).
    apply bind_Ok_inv in Hb as ([] & wb & Hp & Hs).
    injection Hp as <-. change (take 7 stages) with stages in Hs.
    apply stages_Ok_inv in Hs as [-> _].
    destruct (ensure_output_dir_Ok_inv w w0 He) as (Hd & _).
    match type of Hl with
    | main_listing _ ?wx = _ => destruct (main_listing_Ok wx Hd) as (w3 & Hl' & _)
    end.
    rewrite Hl in Hl'. discriminate Hl'.
  - intros [= <- <-]. rewrite main_before_stages in Hb.
    unfold mbind at 1, M_bind at 1 in Hb.
    destruct (ensure_output_dir module_globals w) as [[] w0|e0 w0] eqn:He.
    + right. unfold mbind at 1, M_bind at 1 in Hb. rewrite print_banner in Hb.
      change (take 7 stages) with stages in Hb.
      apply for_each_raise_inv in Hb as (i & nF & wi & Hi & Hpre & Hr).
      apply stages_Ok_inv in Hpre as [-> _].
      exists w0, i, nF. split; [reflexivity|]. split; [exact Hi|exact Hr].
    + left. exact Hb.
Qed.

Lemma ensure_output_dir_Raise_inv (w w1 : World) (e : exn) :
  ensure_output_dir module_globals w = Raise e w1 ->
  w1 = w /\ os.isdir (fs w) "figures" = false
  /\ (e = FileExistsError "figures" /\ os.isfile (fs w) "figures" = true
      \/ e = PermissionError "figures" /\ os.isfile (fs w) "figures" = false
         /\ "figures" ∈ fs_denied (fs w)).
Proof.
  rewrite ensure_output_dir_run.
  destruct (os.isdir (fs w) "figures"); [discriminate|].
  destruct (os.isfile (fs w) "figures").
  - intros [= <- <-]. split; [reflexivity|]. split; [reflexivity|]. left. split; reflexivity.
  - destruct (bool_decide ("figures" ∈ fs_denied (fs w))) eqn:Hden; [|discriminate].
    intros [= <- <-]. split; [reflexivity|]. split; [reflexivity|]. right.
    split; [reflexivity|]. split; [reflexivity|].
    apply bool_decide_eq_true in Hden. exact Hden.
Qed.

(** X1.  When the output directory cannot be made because a file of that name is in
    the way or the path is write protected, [main] raises the error of
    [os.makedirs] at once: nothing is printed, no figure is drawn and the
    world is exactly as it was. *)
Theorem directory_failure_is_fatal (w w1 : World) (e : exn) :
  ensure_output_dir module_globals w = Raise e w1 ->
  main module_globals w = Raise e w
  /\ w1 = w
  /\ is_OSError e = true
  /\ (e = FileExistsError "figures" \/ e = PermissionError "figures").
Proof.
  intros He.
  destruct (ensure_output_dir_Raise_inv w w1 e He) as (-> & _ & Hcase).
  split.
  - unfold main. apply bind_Raise. exact He.
  - split; [reflexivity|].
    destruct Hcase as [[-> _]|[-> _]]; (split; [reflexivity|]); [left|right]; reflexivity.
Qed.

Lemma directory_failure_is_fatal_witness :
  ensure_output_dir module_globals blocked_world
  = Raise (FileExistsError "figures") blocked_world
  /\ main module_globals blocked_world
     = Raise (FileExistsError "figures") blocked_world.
Proof.
  assert (H1 : ensure_output_dir module_globals blocked_world
               = Raise (FileExistsError "figures") blocked_world)
    by (vm_compute; reflexivity).
  split; [exact H1|].
  exact (proj1 (directory_failure_is_fatal blocked_world _ _ H1)).
Defined.






Lemma stage_paths_take (g : Globals) (l : list (string * Figure)) (i : nat) (p : string) :
  p ∈ stage_paths g (take i l) -> p ∈ stage_paths g l.
Proof.
  unfold stage_paths. revert i. induction l as [|x l IH]; intros i H.
  - rewrite take_nil in H. exact H.
  - destruct i as [|i]; [inversion H|].
    cbn [take map concat] in *. apply elem_of_app in H as [H|H]; apply elem_of_app.
    + left. exact H.
    + right. exact (IH i H).
Qed.

Lemma stage_paths_lookup (g : Globals) (l : list (string * Figure)) (i : nat)
    (nF : string * Figure) :
  l !! i = Some nF ->
  png_path g (fst nF) ∈ stage_paths g l /\ pdf_path g (fst nF) ∈ stage_paths g l.
Proof.
  unfold stage_paths. revert i. induction l as [|x l IH]; intros i H; [discriminate H|].
  cbn [map concat]. destruct i as [|i].
  - injection H as ->. split; apply elem_of_app; left.
    + apply list_elem_of_here.
    + apply list_elem_of_further, list_elem_of_here.
  - destruct (IH i H) as [H1 H2]. split; apply elem_of_app; right; assumption.
Qed.

(** X3.  However [main] ends, returning or raising, it has touched no
    file outside the fourteen artifact paths, has made no directory but
    [figures], has removed none, and has left the write protections
    alone. *)
Theorem main_touches_only_artifacts (w : World) :
  (forall q, q ∉ stage_paths module_globals stages ->
             fs_files (fs (world_of (main module_globals w))) !! q
             = fs_files (fs w) !! q)
  /\ fs_dirs (fs w) ⊆ fs_dirs (fs (world_of (main module_globals w)))
  /\ fs_dirs (fs (world_of (main module_globals w))) ⊆ {[ "figures" ]} ∪ fs_dirs (fs w)
  /\ fs_denied (fs (world_of (main module_globals w))) = fs_denied (fs w).
Proof.
  assert (Hens : forall w0, ensure_output_dir module_globals w = Ok tt w0 ->
            fs_files (fs w0) = fs_files (fs w)
            /\ fs_dirs (fs w) ⊆ fs_dirs (fs w0)
            /\ fs_dirs (fs w0) ⊆ {[ "figures" ]} ∪ fs_dirs (fs w)
            /\ fs_denied (fs w0) = fs_denied (fs w)).
  { intros w0 He.
    destruct (ensure_output_dir_Ok_inv w w0 He) as (_ & Hf & Hden & Hsub & _).
    split; [exact Hf|]. split; [exact Hsub|]. split; [|exact Hden].
    rewrite ensure_output_dir_run in He.
    destruct (os.isdir (fs w) "figures"); [injection He as <-; set_solver|].
    destruct (os.isfile (fs w) "figures"); [discriminate|].
    destruct (bool_decide _); [discriminate|]. injection He as <-. reflexivity. }
  destruct (main module_globals w) as [[] w'|e w1] eqn:Hrun; cbn [world_of].
  - apply main_Ok_inv in Hrun as (w0 & He & -> & _).
    destruct (Hens w0 He) as (Hf & Hsub & Hsup & Hden).
    unfold after_stages. cbn [fs fs_files fs_dirs fs_denied].
    split; [|split; [exact Hsub|split; [exact Hsup|exact Hden]]].
    intros q Hq. rewrite write_all_lookup_notin; [rewrite Hf; reflexivity|].
    rewrite stage_artifacts_paths. exact Hq.
  - apply main_Raise_inv in Hrun as [He|(w0 & i & nF & He & Hi & Hr)].
    + apply ensure_output_dir_Raise_inv in He as (-> & _).
      split; [reflexivity|]. split; [reflexivity|]. split; [set_solver|reflexivity].
    + destruct (Hens w0 He) as (Hf & Hsub & Hsup & Hden).
      unfold save_stage, save_pair in Hr.
      destruct (stage_paths_lookup module_globals stages i nF Hi) as [Hpng Hpdf].
      match type of Hr with
      | match os.write_file ?p ?d ?s with _ => _ end = _ =>
          destruct (os.write_file p d s) as [s1|e1] eqn:H1
      end.
      * apply write_file_inl in H1 as [_ ->].
        match type of Hr with
        | match os.write_file ?p ?d ?s with _ => _ end = _ =>
            destruct (os.write_file p d s) as [s2|e2] eqn:H2; [discriminate|]
        end.
        injection Hr as <- <-.
        cbn [set_fs set_figs after_stages with_banner fs fs_files fs_dirs fs_denied].
        split; [|split; [exact Hsub|split; [exact Hsup|exact Hden]]].
        intros q Hq.
        rewrite lookup_insert_ne by (intros <-; exact (Hq Hpng)).
        rewrite write_all_lookup_notin; [rewrite Hf; reflexivity|].
        rewrite stage_artifacts_paths. intros Hin.
        exact (Hq (stage_paths_take _ _ _ _ Hin)).
      * injection Hr as <- <-.
        cbn [set_fs set_figs after_stages with_banner fs fs_files fs_dirs fs_denied].
        split; [|split; [exact Hsub|split; [exact Hsup|exact Hden]]].
        intros q Hq.
        rewrite write_all_lookup_notin; [rewrite Hf; reflexivity|].
        rewrite stage_artifacts_paths. intros Hin.
        exact (Hq (stage_paths_take _ _ _ _ Hin)).
Qed.

(** ** Open figures *)

(** X4.  A builder of the module that returns has closed its figure and
    printed its one progress line; one that raises has printed nothing
    and has left its figure open on pyplot's stack, [plt.close()] not
    being reached. *)
Theorem builder_closes_figure_unless_it_raises (i : nat) (name : string)
    (b : Globals -> M unit) (w : World) :
  figure_builders !! i = Some (name, b) ->
  match b module_globals w with
  | Ok _ w' =>
      plt_figs w' = plt_figs w
      /\ console w' = app (console w) ["✓ Generated: " ++ name]
  | Raise e w1 =>
      plt_figs w1 = figure_of name b :: plt_figs w
      /\ console w1 = console w
      /\ is_OSError e = true
  end.
Proof.
  intros Hi. rewrite (builder_run i name b w Hi).
  destruct (save_pair module_globals name (figure_of name b) w) as [[] w'|e w1] eqn:H.
  - apply save_pair_Ok_inv in H as (_ & _ & ->). split; reflexivity.
  - apply save_pair_Raise_inv in H as (He & _ & Hc & Hf & _).
    split; [exact Hf|]. split; [exact Hc|exact He].
Qed.

Lemma builder_closes_figure_unless_it_raises_witness :
  figure_builders !! 2%nat = Some ("fig3_cost_comparison", fig3_cost_comparison)
  /\ match fig3_cost_comparison module_globals denied_world with
     | Ok _ w' => plt_figs w' = plt_figs denied_world
                  /\ console w' = app (console denied_world)
                                      ["✓ Generated: " ++ "fig3_cost_comparison"]
     | Raise e w1 =>
         plt_figs w1
         = figure_of "fig3_cost_comparison" fig3_cost_comparison :: plt_figs denied_world
         /\ console w1 = console denied_world
         /\ is_OSError e = true
     end.
Proof.
  assert (H1 : figure_builders !! 2%nat
               = Some ("fig3_cost_comparison", fig3_cost_comparison))
    by reflexivity.
  split; [exact H1|].
  exact (builder_closes_figure_unless_it_raises 2 _ _ denied_world H1).
Defined.

(** ** Running [main] again *)







(** ** Progress lines *)

Lemma stage_paths_app (g : Globals) (l1 l2 : list (string * Figure)) :
  stage_paths g (l1 ++ l2) = (stage_paths g l1 ++ stage_paths g l2)%list.
Proof. unfold stage_paths. rewrite map_app, concat_app. reflexivity. Qed.

Lemma stage_names_NoDup : NoDup (map fst stages).
Proof. apply (bool_decide_unpack _). vm_compute. reflexivity. Qed.

(** The files of a stage saved before the [k]-th are at their paths
    after the first [k] stages, and the paths of the [k]-th are others. *)
Lemma earlier_stage_saved (w : World) (k j : nat) (nF nFk : string * Figure) :
  stages !! j = Some nF -> (j < k)%nat -> stages !! k = Some nFk ->
  let files := write_all (stage_artifacts module_globals w (take k stages))
                         (fs_files (fs w)) in
  files !! png_path module_globals (fst nF)
  = Some (Image PNG (rcParams w) (rc_styles w) (snd nF))
  /\ files !! pdf_path module_globals (fst nF)
     = Some (Image PDF (rcParams w) (rc_styles w) (snd nF))
  /\ png_path module_globals (fst nFk) <> png_path module_globals (fst nF)
  /\ png_path module_globals (fst nFk) <> pdf_path module_globals (fst nF).
Proof.
  intros Hj Hlt Hk files.
  pose proof stage_paths_NoDup as Hnd.
  rewrite <- (take_drop k stages), stage_paths_app in Hnd.
  apply NoDup_app in Hnd as (Hnd1 & Hdisj & _).
  assert (Hjk : take k stages !! j = Some nF)
    by (apply lookup_take_Some; split; assumption).
  assert (Hk0 : drop k stages !! 0%nat = Some nFk)
    by (rewrite lookup_drop, Nat.add_0_r; exact Hk).
  destruct (stage_paths_lookup module_globals _ j nF Hjk) as [Hpng Hpdf].
  destruct (stage_paths_lookup module_globals _ 0 nFk Hk0) as [Hpngk _].
  destruct nF as [name F]. cbn [fst snd] in *.
  split; [|split; [|split]].
  - apply write_all_lookup_in; [rewrite stage_artifacts_paths; exact Hnd1|].
    apply (stage_artifact_in _ _ _ j name F _ Hjk). apply list_elem_of_here.
  - apply write_all_lookup_in; [rewrite stage_artifacts_paths; exact Hnd1|].
    apply (stage_artifact_in _ _ _ j name F _ Hjk).
    apply list_elem_of_further, list_elem_of_here.
  - intros Heq. apply (Hdisj _ Hpng). rewrite <- Heq. exact Hpngk.
  - intros Heq. apply (Hdisj _ Hpdf). rewrite <- Heq. exact Hpngk.
Qed.

Lemma banner_is_no_progress_line (name : string) : banner <> "✓ Generated: " ++ name.
Proof. unfold banner, nl. simpl. discriminate. Qed.

(** X6.  However [main] ends, a progress line it has printed for a
    figure means that both files of that figure are on disk and hold
    that figure: a figure is reported only after it has been saved
    twice, and a later failure does not undo it. *)
Theorem progress_line_means_saved (w : World) (i : nat) (name : string) (F : Figure) :
  stages !! i = Some (name, F) ->
  ("✓ Generated: " ++ name)
    ∈ drop (length (console w)) (console (world_of (main module_globals w))) ->
  fs_files (fs (world_of (main module_globals w))) !! png_path module_globals name
  = Some (Image PNG (rcParams w) (rc_styles w) F)
  /\ fs_files (fs (world_of (main module_globals w))) !! pdf_path module_globals name
     = Some (Image PDF (rcParams w) (rc_styles w) F).
Proof.
  intros Hi Hline.
  destruct (main module_globals w) as [[] w'|e w1] eqn:Hrun; cbn [world_of] in *.
  - apply main_Ok_inv in Hrun as (w0 & He & -> & _).
    destruct (ensure_output_dir_Ok_inv w w0 He) as (_ & _ & _ & _ & _ & _ & Hst & Hrc).
    unfold after_stages. cbn [fs fs_files]. rewrite <- Hst, <- Hrc.
    split; apply write_all_lookup_in;
      try (rewrite stage_artifacts_paths; exact stage_paths_NoDup);
      apply (stage_artifact_in _ _ _ i name F _ Hi).
    + apply list_elem_of_here.
    + apply list_elem_of_further, list_elem_of_here.
  - apply main_Raise_inv in Hrun as [He|(w0 & k & nFk & He & Hk & Hr)].
    + apply ensure_output_dir_Raise_inv in He as (-> & _).
      rewrite drop_all in Hline. inversion Hline.
    + destruct (ensure_output_dir_Ok_inv w w0 He)
        as (_ & _ & _ & _ & Hc & _ & Hst & Hrc).
      pose proof Hr as Hr'. unfold save_stage in Hr'.
      apply save_pair_Raise_inv in Hr' as (_ & _ & Hc1 & _ & _).
      cbn [after_stages with_banner console] in Hc1.
      rewrite Hc1, Hc, <- app_assoc, drop_app_length in Hline.
      apply elem_of_cons in Hline as [Hb|Hline];
        [exfalso; exact (banner_is_no_progress_line name (eq_sym Hb))|].
      unfold progress_lines in Hline.
      change (map ?f (take k stages)) with (f <$> take k stages) in Hline.
      apply list_elem_of_fmap in Hline as ([name' F'] & Heq & Hin).
      cbn [fst] in Heq. apply string_app_inv_head in Heq. subst name'.
      apply list_elem_of_lookup in Hin as (j & Hj).
      apply lookup_take_Some in Hj as [Hj Hlt].
      assert (j = i) as ->.
      { pose proof stage_names_NoDup as Hnd.
        change (map fst stages) with (fst <$> stages) in Hnd.
        eapply (NoDup_lookup _ _ _ name Hnd); rewrite list_lookup_fmap.
        - rewrite Hj. reflexivity.
        - rewrite Hi. reflexivity. }
      rewrite Hi in Hj. injection Hj as <-.
      destruct (earlier_stage_saved (with_banner w0) k i (name, F) nFk Hi Hlt Hk)
        as (Hpng & Hpdf & Hne1 & Hne2).
      cbn [fst snd with_banner rcParams rc_styles fs] in Hpng, Hpdf, Hne1, Hne2.
      rewrite Hst, Hrc in Hpng, Hpdf.
      unfold save_stage, save_pair in Hr.
      match type of Hr with
      | match os.write_file ?p ?d ?s with _ => _ end = _ =>
          destruct (os.write_file p d s) as [s1|e1] eqn:H1
      end.
      * apply write_file_inl in H1 as [_ ->].
        match type of Hr with
        | match os.write_file ?p ?d ?s with _ => _ end = _ =>
            destruct (os.write_file p d s) as [s2|e2] eqn:H2; [discriminate|]
        end.
        injection Hr as <- <-.
        cbn [set_fs set_figs after_stages with_banner fs fs_files].
        rewrite !lookup_insert_ne by assumption. split; assumption.
      * injection Hr as <- <-.
        cbn [set_fs set_figs after_stages with_banner fs fs_files].
        split; assumption.
Qed.

Lemma progress_line_means_saved_witness :
  stages !! 1%nat
  = Some ("fig2_calls_by_category",
          figure_of "fig2_calls_by_category" fig2_calls_by_category)
  /\ ("✓ Generated: " ++ "fig2_calls_by_category")
       ∈ drop (length (console denied_world))
              (console (world_of (main module_globals denied_world)))
  /\ fs_files (fs (world_of (main module_globals denied_world)))
       !! "figures/fig2_calls_by_category.pdf"
     = Some (Image PDF [] []
               (figure_of "fig2_calls_by_category" fig2_calls_by_category)).
Proof.
  assert (H1 : stages !! 1%nat
               = Some ("fig2_calls_by_category",
                       figure_of "fig2_calls_by_category" fig2_calls_by_category))
    by reflexivity.
  assert (H2 : ("✓ Generated: " ++ "fig2_calls_by_category")
                 ∈ drop (length (console denied_world))
                        (console (world_of (main module_globals denied_world))))
    by (apply (bool_decide_unpack _); vm_compute; reflexivity).
  split; [exact H1|]. split; [exact H2|].
  exact (proj2 (progress_line_means_saved denied_world 1 _ _ H1 H2)).
Defined.

(** ** The builders under other tables *)

Ltac same_run_tables :=
  intros;
  cbv beta delta [fig5_architecture_comparison fig7_summary_table ensure_output_dir];
  cbn [with_tables OUTPUT_DIR OVERALL_DATA CATEGORY_DATA COLORS];
  reflexivity.

(** X7.  The architecture diagram and the summary table are written out
    in their builders: whatever [OVERALL_DATA] and [CATEGORY_DATA] are
    bound to, [fig5_architecture_comparison] and [fig7_summary_table] do
    the same, so the table of figure 7 does not follow a change of the
    data the other figures chart. *)
Theorem diagram_and_table_ignore_the_data (g : Globals)
    (od : list (string * MetricRow)) (cd : list (string * list (string * float)))
    (w : World) :
  fig5_architecture_comparison (with_tables od cd g) w
  = fig5_architecture_comparison g w
  /\ fig7_summary_table (with_tables od cd g) w = fig7_summary_table g w
  /\ ensure_output_dir (with_tables od cd g) w = ensure_output_dir g w.
Proof. split; [|split]; same_run_tables. Qed.

(** X8.  With an empty [OVERALL_DATA] each of the three bar charts
    raises [IndexError] at [bars[0]]: it has drawn an empty chart, which
    stays open; it has written no file and printed nothing. *)
Theorem bar_charts_reject_empty_table (g : Globals) (w : World) :
  OVERALL_DATA g = [] ->
  Forall (fun b : Globals -> M unit =>
            b g w = Raise IndexError (world_of (b g w))
            /\ fs (world_of (b g w)) = fs w
            /\ console (world_of (b g w)) = console w
            /\ length (plt_figs (world_of (b g w))) = S (length (plt_figs w))
            /\ (data_points <$> head (plt_figs (world_of (b g w)))) = Some 0%nat)
         [fig1_llm_calls_comparison; fig3_cost_comparison; fig4_token_efficiency].
Proof.
  intros H.
  repeat (apply List.Forall_cons; [cbv beta|]); [| | |apply List.Forall_nil].
  - unfold fig1_llm_calls_comparison. rewrite H. lazy. repeat split; reflexivity.
  - unfold fig3_cost_comparison. rewrite H. lazy. repeat split; reflexivity.
  - unfold fig4_token_efficiency. rewrite H. lazy. repeat split; reflexivity.
Qed.

Lemma bar_charts_reject_empty_table_witness :
  OVERALL_DATA empty_tables = []
  /\ fig1_llm_calls_comparison empty_tables ready_world
     = Raise IndexError (world_of (fig1_llm_calls_comparison empty_tables ready_world)).
Proof.
  assert (H1 : OVERALL_DATA empty_tables = []) by reflexivity.
  split; [exact H1|].
  pose proof (bar_charts_reject_empty_table empty_tables ready_world H1) as H.
  apply Forall_cons in H as [(H & _) _]. exact H.
Defined.

Lemma fig2_empty_run (od : list (string * MetricRow)) (w : World) :
  fig2_calls_by_category (with_tables od [] module_globals) w
  = save_pair module_globals "fig2_calls_by_category"
      (figure_drawn empty_tables "fig2_calls_by_category" fig2_calls_by_category) w.
Proof. run_builder. Qed.

Lemma fig6_empty_run (od : list (string * MetricRow)) (w : World) :
  fig6_scaling_line (with_tables od [] module_globals) w
  = save_pair module_globals "fig6_scaling_line"
      (figure_drawn empty_tables "fig6_scaling_line" fig6_scaling_line) w.
Proof. run_builder. Qed.

(** X9.  With an empty [CATEGORY_DATA], and whatever [OVERALL_DATA] is,
    the two category charts do not fail: where their two paths can be
    written they return and save a chart that has the five series, for
    the legend, and no data point. *)
Theorem category_charts_accept_empty_table (i : nat) (name : string)
    (b : Globals -> M unit) (od : list (string * MetricRow)) (w : World) :
  category_charts !! i = Some (name, b) ->
  writable (fs w) (png_path module_globals name) = true ->
  writable (fs w) (pdf_path module_globals name) = true ->
  exists w' F,
    b (with_tables od [] module_globals) w = Ok tt w'
    /\ rendered w' (png_path module_globals name) = Some F
    /\ rendered w' (pdf_path module_globals name) = Some F
    /\ map fst (series_values F)
       = ["Manifesto"; "OpenAI-mini"; "OpenAI-4o"; "ReAct-mini"; "ReAct-4o"]
    /\ data_points F = 0%nat
    /\ ax_xticklabels (the_axes F) = [].
Proof.
  intros Hi W1 W2.
  destruct i as [|[|i]]; [| |discriminate Hi];
    cbv [category_charts lookup list_lookup] in Hi; injection Hi as <- <-.
  - exists (after_stages module_globals w
              [("fig2_calls_by_category",
                figure_drawn empty_tables "fig2_calls_by_category" fig2_calls_by_category)]),
           (figure_drawn empty_tables "fig2_calls_by_category" fig2_calls_by_category).
    split; [rewrite fig2_empty_run; apply save_pair_writable; assumption|].
    unfold rendered, after_stages, stage_artifacts, write_all.
    cbn [map concat app foldl artifacts_of fst snd fs fs_files].
    rewrite lookup_insert_ne by (apply not_eq_sym, png_ne_pdf).
    rewrite !lookup_insert_eq. by_computation.
  - exists (after_stages module_globals w
              [("fig6_scaling_line",
                figure_drawn empty_tables "fig6_scaling_line" fig6_scaling_line)]),
           (figure_drawn empty_tables "fig6_scaling_line" fig6_scaling_line).
    split; [rewrite fig6_empty_run; apply save_pair_writable; assumption|].
    unfold rendered, after_stages, stage_artifacts, write_all.
    cbn [map concat app foldl artifacts_of fst snd fs fs_files].
    rewrite lookup_insert_ne by (apply not_eq_sym, png_ne_pdf).
    rewrite !lookup_insert_eq. by_computation.
Qed.

Lemma category_charts_accept_empty_table_witness :
  category_charts !! 1%nat = Some ("fig6_scaling_line", fig6_scaling_line)
  /\ writable (fs ready_world) (png_path module_globals "fig6_scaling_line") = true
  /\ writable (fs ready_world) (pdf_path module_globals "fig6_scaling_line") = true
  /\ exists w' F,
       fig6_scaling_line (with_tables [] [] module_globals) ready_world = Ok tt w'
       /\ rendered w' "figures/fig6_scaling_line.png" = Some F
       /\ data_points F = 0%nat.
Proof.
  assert (H1 : category_charts !! 1%nat = Some ("fig6_scaling_line", fig6_scaling_line))
    by reflexivity.
  assert (H2 : writable (fs ready_world)
                 (png_path module_globals "fig6_scaling_line") = true)
    by (vm_compute; reflexivity).
  assert (H3 : writable (fs ready_world)
                 (pdf_path module_globals "fig6_scaling_line") = true)
    by (vm_compute; reflexivity).
  split; [exact H1|]. split; [exact H2|]. split; [exact H3|].
  destruct (category_charts_accept_empty_table 1 _ _ [] ready_world H1 H2 H3)
    as (w' & F & Hrun & Hpng & _ & _ & Hn & _).
  exists w', F. repeat split; assumption.
Defined.

(** ** Missing keys *)

Lemma for_each_Ok_inv {A : Type} (l : list A) (f : A -> M unit) (w w' : World) :
  for_each l f w = Ok tt w' ->
  forall x, x ∈ l -> exists w1 w2, f x w1 = Ok tt w2.
Proof.
  revert w. induction l as [|y l IH]; intros w H x Hx; [inversion Hx|].
  simpl in H. apply bind_Ok_inv in H as ([] & w1 & Hy & Hl).
  apply elem_of_cons in Hx as [->|Hx].
  - exists w, w1. exact Hy.
  - exact (IH w1 Hl x Hx).
Qed.

Lemma comprehension_Ok_inv {A B : Type} (l : list A) (f : A -> M B)
    (w w' : World) (ys : list B) :
  comprehension l f w = Ok ys w' ->
  forall x, x ∈ l -> exists w1 y w2, f x w1 = Ok y w2.
Proof.
  revert w w' ys. induction l as [|z l IH]; intros w w' ys H x Hx; [inversion Hx|].
  simpl in H. apply bind_Ok_inv in H as (y & w1 & Hz & Hl).
  apply bind_Ok_inv in Hl as (ys' & w2 & Hl & _).
  apply elem_of_cons in Hx as [->|Hx].
  - exists w, y, w1. exact Hz.
  - exact (IH w1 w2 ys' Hl x Hx).
Qed.

Lemma getitem_Ok_inv {V : Type} (d : list (string * V)) (k : string) (v : V)
    (w w' : World) :
  getitem d k w = Ok v w' -> dict_get d k = Some v /\ w' = w.
Proof.
  unfold getitem, run_option. destruct (dict_get d k) as [v'|]; [|discriminate].
  intros [= -> ->]. split; reflexivity.
Qed.

(** The lookup [CATEGORY_DATA[cat][method]] of both category charts. *)
Lemma cell_lookup_Ok_inv (d : list (string * list (string * float)))
    (cats : list string) (m cat : string) (w w' : World) (values : list float) :
  comprehension cats (fun cat => row ← getitem d cat; getitem row m) w = Ok values w' ->
  cat ∈ cats ->
  exists row v, dict_get d cat = Some row /\ dict_get row m = Some v.
Proof.
  intros H Hcat.
  destruct (comprehension_Ok_inv _ _ _ _ _ H cat Hcat) as (wd & y & we & Hget).
  apply bind_Ok_inv in Hget as (row & wf & Hrow & Hval).
  apply getitem_Ok_inv in Hrow as [Hrow _]. apply getitem_Ok_inv in Hval as [Hval _].
  exists row, y. split; assumption.
Qed.

(** X10.  Under any tables, a category chart that returns has found a
    value for each of its five methods in the row of every category: a
    row that lacks one of them makes [fig2_calls_by_category] and
    [fig6_scaling_line] fail. *)
Theorem category_chart_needs_every_cell (i : nat) (name : string)
    (b : Globals -> M unit) (g : Globals) (w w' : World) (cat m : string) :
  category_charts !! i = Some (name, b) ->
  b g w = Ok tt w' ->
  cat ∈ keys (CATEGORY_DATA g) ->
  m ∈ chart_methods ->
  exists row v, dict_get (CATEGORY_DATA g) cat = Some row /\ dict_get row m = Some v.
Proof.
  intros Hi H Hcat Hm. unfold chart_methods in Hm.
  destruct i as [|[|i]]; [| |discriminate Hi];
    cbv [category_charts lookup list_lookup] in Hi; injection Hi as <- <-.
  - unfold fig2_calls_by_category in H.
    apply bind_Ok_inv in H as (a & w1 & _ & H). cbv zeta in H.
    apply bind_Ok_inv in H as ([] & w2 & Hloop & _).
    assert (Hx : exists j c,
               (j, (m, c)) ∈ enumerate (zip chart_methods palette)).
    { apply elem_of_cons in Hm as [->|Hm];
        [exists 0%Z, "#2ecc71"; apply (bool_decide_unpack _); vm_compute; reflexivity|].
      apply elem_of_cons in Hm as [->|Hm];
        [exists 1%Z, "#3498db"; apply (bool_decide_unpack _); vm_compute; reflexivity|].
      apply elem_of_cons in Hm as [->|Hm];
        [exists 2%Z, "#2980b9"; apply (bool_decide_unpack _); vm_compute; reflexivity|].
      apply elem_of_cons in Hm as [->|Hm];
        [exists 3%Z, "#e74c3c"; apply (bool_decide_unpack _); vm_compute; reflexivity|].
      apply elem_of_cons in Hm as [->|Hm];
        [exists 4%Z, "#c0392b"; apply (bool_decide_unpack _); vm_compute; reflexivity|].
      inversion Hm. }
    destruct Hx as (j & c & Hx).
    destruct (for_each_Ok_inv _ _ _ _ Hloop _ Hx) as (wa & wb & Hbody).
    cbv beta iota in Hbody.
    apply bind_Ok_inv in Hbody as (values & wc & Hvals & _).
    exact (cell_lookup_Ok_inv _ _ _ _ _ _ _ Hvals Hcat).
  - unfold fig6_scaling_line in H.
    apply bind_Ok_inv in H as (a & w1 & _ & H). cbv zeta in H.
    apply bind_Ok_inv in H as ([] & w2 & Hloop & _).
    assert (Hx : exists c mk ls,
               (m, c, mk, ls)
                 ∈ zip (zip (zip chart_methods palette) ["o"; "s"; "s"; "^"; "^"])
                       ["-"; "-"; "--"; "-"; "--"]).
    { apply elem_of_cons in Hm as [->|Hm];
        [exists "#2ecc71", "o", "-"; apply (bool_decide_unpack _); vm_compute; reflexivity|].
      apply elem_of_cons in Hm as [->|Hm];
        [exists "#3498db", "s", "-"; apply (bool_decide_unpack _); vm_compute; reflexivity|].
      apply elem_of_cons in Hm as [->|Hm];
        [exists "#2980b9", "s", "--"; apply (bool_decide_unpack _); vm_compute; reflexivity|].
      apply elem_of_cons in Hm as [->|Hm];
        [exists "#e74c3c", "^", "-"; apply (bool_decide_unpack _); vm_compute; reflexivity|].
      apply elem_of_cons in Hm as [->|Hm];
        [exists "#c0392b", "^", "--"; apply (bool_decide_unpack _); vm_compute; reflexivity|].
      inversion Hm. }
    destruct Hx as (c & mk & ls & Hx).
    destruct (for_each_Ok_inv _ _ _ _ Hloop _ Hx) as (wa & wb & Hbody).
    cbv beta iota in Hbody.
    apply bind_Ok_inv in Hbody as (values & wc & Hvals & _).
    exact (cell_lookup_Ok_inv _ _ _ _ _ _ _ Hvals Hcat).
Qed.

Lemma category_chart_needs_every_cell_witness :
  category_charts !! 0%nat = Some ("fig2_calls_by_category", fig2_calls_by_category)
  /\ fig2_calls_by_category module_globals ready_world
     = Ok tt (world_of (fig2_calls_by_category module_globals ready_world))
  /\ "Bulk" ∈ keys (CATEGORY_DATA module_globals)
  /\ "ReAct-mini" ∈ chart_methods
  /\ exists row v, dict_get (CATEGORY_DATA module_globals) "Bulk" = Some row
                   /\ dict_get row "ReAct-mini" = Some v.
Proof.
  assert (H1 : category_charts !! 0%nat
               = Some ("fig2_calls_by_category", fig2_calls_by_category))
    by reflexivity.
  assert (H2 : fig2_calls_by_category module_globals ready_world
               = Ok tt (world_of (fig2_calls_by_category module_globals ready_world)))
    by (vm_compute; reflexivity).
  assert (H3 : "Bulk" ∈ keys (CATEGORY_DATA module_globals))
    by (apply (bool_decide_unpack _); vm_compute; reflexivity).
  assert (H4 : "ReAct-mini" ∈ chart_methods)
    by (apply (bool_decide_unpack _); vm_compute; reflexivity).
  split; [exact H1|]. split; [exact H2|]. split; [exact H3|]. split; [exact H4|].
  exact (category_chart_needs_every_cell 0 _ _ module_globals ready_world _
           "Bulk" "ReAct-mini" H1 H2 H3 H4).
Defined.

Lemma dict_get_key {V : Type} (d : list (string * V)) (k : string) :
  k ∈ keys d -> exists v, dict_get d k = Some v.
Proof.
  induction d as [|[k' v'] d IH]; intros H; [inversion H|].
  simpl. destruct (String.eqb k' k) eqn:E; [exists v'; reflexivity|].
  apply IH. cbn [keys map fst] in H. apply elem_of_cons in H as [->|H]; [|exact H].
  rewrite String.eqb_refl in E. discriminate E.
Qed.

(** Looking one method up in the row of every category raises the
    [KeyError] of that method as soon as a row lacks it. *)
Lemma cell_lookup_raise (d : list (string * list (string * float)))
    (cats : list string) (m : string) (w : World) :
  (forall cat, cat ∈ cats -> cat ∈ keys d) ->
  (exists cat, cat ∈ cats
               /\ forall row, dict_get d cat = Some row -> dict_get row m = None) ->
  comprehension cats (fun cat => row ← getitem d cat; getitem row m) w
  = Raise (KeyError m) w.
Proof.
  induction cats as [|c cats IH]; intros Hkeys (cat & Hcat & Hnone); [inversion Hcat|].
  destruct (dict_get_key d c (Hkeys c (list_elem_of_here _ _))) as (row & Hrow).
  cbn [comprehension].
  destruct (dict_get row m) as [v|] eqn:Hv.
  - erewrite bind_Ok;
      [|unfold mbind, M_bind, getitem, run_option; rewrite Hrow; cbn; rewrite Hv;
        reflexivity].
    apply bind_Raise. apply IH.
    + intros c' Hc'. apply Hkeys. apply list_elem_of_further. exact Hc'.
    + exists cat. split; [|exact Hnone].
      apply elem_of_cons in Hcat as [->|Hcat]; [|exact Hcat].
      rewrite (Hnone row Hrow) in Hv. discriminate Hv.
  - apply bind_Raise.
    unfold mbind, M_bind, getitem, run_option. rewrite Hrow. cbn. rewrite Hv.
    reflexivity.
Qed.

(** X11.  Under any tables, when the row of some category has no value
    for Manifesto, the first method charted, both category charts raise
    [KeyError('Manifesto')] before anything is drawn: the new figure is
    left open and empty, no file is written and nothing is printed. *)
Theorem category_charts_raise_KeyError (i : nat) (name : string)
    (b : Globals -> M unit) (g : Globals) (w : World) (cat : string) :
  category_charts !! i = Some (name, b) ->
  cat ∈ keys (CATEGORY_DATA g) ->
  (forall row, dict_get (CATEGORY_DATA g) cat = Some row ->
               dict_get row "Manifesto" = None) ->
  exists w1,
    b g w = Raise (KeyError "Manifesto") w1
    /\ fs w1 = fs w /\ console w1 = console w
    /\ (artists_of <$> head (plt_figs w1)) = Some []
    /\ tail (plt_figs w1) = plt_figs w.
Proof.
  intros Hi Hcat Hnone.
  destruct i as [|[|i]]; [| |discriminate Hi];
    cbv [category_charts lookup list_lookup] in Hi; injection Hi as <- <-.
  - eexists. split.
    + unfold fig2_calls_by_category.
      erewrite bind_Ok; [|reflexivity]. cbv zeta.
      apply bind_Raise.
      cbn [enumerate arange zip zip_with length seq map for_each].
      apply bind_Raise. cbv beta iota. apply bind_Raise.
      apply cell_lookup_raise; [intros c Hc; exact Hc|].
      exists cat. split; [exact Hcat|exact Hnone].
    + repeat split; reflexivity.
  - eexists. split.
    + unfold fig6_scaling_line.
      erewrite bind_Ok; [|reflexivity]. cbv zeta.
      apply bind_Raise.
      cbn [zip zip_with for_each]. apply bind_Raise. cbv beta iota. apply bind_Raise.
      apply cell_lookup_raise; [intros c Hc; exact Hc|].
      exists cat. split; [exact Hcat|exact Hnone].
    + repeat split; reflexivity.
Qed.

Lemma category_charts_raise_KeyError_witness :
  category_charts !! 1%nat = Some ("fig6_scaling_line", fig6_scaling_line)
  /\ "Bulk" ∈ keys (CATEGORY_DATA ragged_tables)
  /\ (forall row, dict_get (CATEGORY_DATA ragged_tables) "Bulk" = Some row ->
                  dict_get row "Manifesto" = None)
  /\ exists w1,
       fig6_scaling_line ragged_tables ready_world = Raise (KeyError "Manifesto") w1
       /\ fs w1 = fs ready_world.
Proof.
  assert (H1 : category_charts !! 1%nat = Some ("fig6_scaling_line", fig6_scaling_line))
    by reflexivity.
  assert (H2 : "Bulk" ∈ keys (CATEGORY_DATA ragged_tables))
    by (apply (bool_decide_unpack _); vm_compute; reflexivity).
  assert (H3 : forall row, dict_get (CATEGORY_DATA ragged_tables) "Bulk" = Some row ->
                           dict_get row "Manifesto" = None)
    by (intros row [= <-]; reflexivity).
  split; [exact H1|]. split; [exact H2|]. split; [exact H3|].
  destruct (category_charts_raise_KeyError 1 _ _ ragged_tables ready_world "Bulk" H1 H2 H3)
    as (w1 & Hrun & Hfs & _).
  exists w1. split; [exact Hrun|exact Hfs].
Defined.

(** ** The rc parameters *)









(** ** The listing at the end of [main] *)

Lemma insert_sorted_Permutation (x : string) (l : list string) :
  insert_sorted x l ≡ₚ x :: l.
Proof.
  induction l as [|y l IH]; simpl; [reflexivity|].
  destruct (String.leb x y); [reflexivity|].
  rewrite IH. apply Permutation_swap.
Qed.

Lemma sorted_Permutation (l : list string) : sorted l ≡ₚ l.
Proof.
  induction l as [|x l IH]; simpl; [reflexivity|].
  rewrite insert_sorted_Permutation, IH. reflexivity.
Qed.

Lemma insert_sorted_HdRel (x y : string) (l : list string) :
  str_le y x -> HdRel str_le y l -> HdRel str_le y (insert_sorted x l).
Proof.
  intros Hyx Hl. destruct l as [|z l]; simpl.
  - constructor. exact Hyx.
  - destruct (String.leb x z); constructor; [exact Hyx|].
    inversion Hl. assumption.
Qed.

Lemma insert_sorted_Sorted (x : string) (l : list string) :
  Sorted str_le l -> Sorted str_le (insert_sorted x l).
Proof.
  induction l as [|y l IH]; intros Hs; simpl.
  - repeat constructor.
  - destruct (String.leb x y) eqn:E.
    + constructor; [exact Hs|]. constructor. exact E.
    + inversion Hs as [|? ? Hl Hhd]; subst. constructor; [exact (IH Hl)|].
      apply insert_sorted_HdRel; [|exact Hhd].
      destruct (String.leb_total x y) as [H|H]; [congruence|exact H].
Qed.

Lemma sorted_Sorted (l : list string) : Sorted str_le (sorted l).
Proof.
  induction l as [|x l IH]; simpl; [constructor|].
  apply insert_sorted_Sorted. exact IH.
Qed.

Lemma main_listing_console (w : World) :
  os.isdir (fs w) "figures" = true ->
  exists w', main_listing module_globals w = Ok tt w'
    /\ fs w' = fs w
    /\ console w'
       = (console w ++ [saved_line; files_header]
          ++ map listing_line (sorted (output_entries (fs w))))%list.
Proof.
  intros Hd. unfold main_listing, os.listdir, output_entries.
  cbn -[os.isdir sorted elements dom union for_each].
  unfold mbind at 1 2 3, M_bind at 1 2 3, print at 1 2.
  cbn -[os.isdir sorted elements dom union for_each].
  rewrite Hd.
  match goal with
  | |- context [for_each ?l _ ?w0] =>
      destruct (for_each_print l (fun name => "  - " ++ name) w0)
        as (w' & Hrun & Hfs & Hc & _)
  end.
  exists w'. split; [exact Hrun|]. split; [exact Hfs|].
  rewrite Hc. cbn [console]. rewrite <- !app_assoc. reflexivity.
Qed.

Lemma artifact_entries :
  Forall (fun nF =>
            os.entry_of "figures" (png_path module_globals (fst nF))
            = Some (fst nF ++ ".png")
            /\ os.entry_of "figures" (pdf_path module_globals (fst nF))
               = Some (fst nF ++ ".pdf"))
         stages.
Proof. by_computation. Qed.

(** X13.  When [main] returns, what it has printed is the banner, the
    seven progress lines in the order of the figures, the two closing
    lines, and then one line per entry of the output directory, in
    ascending order of the names; among these entries are the PNG and the
    PDF of every figure. *)
Theorem main_lists_every_artifact (w w' : World) :
  main module_globals w = Ok tt w' ->
  exists names,
    console w'
    = (console w ++ (banner :: progress_lines stages)
       ++ [saved_line; files_header] ++ map listing_line names)%list
    /\ Sorted str_le names
    /\ names ≡ₚ output_entries (fs w')
    /\ forall i name F, stages !! i = Some (name, F) ->
         (name ++ ".png") ∈ names /\ (name ++ ".pdf") ∈ names.
Proof.
  rewrite main_split. intros H.
  apply bind_Ok_inv in H as ([] & w2 & Hb & Hl).
  rewrite main_before_stages in Hb.
  apply bind_Ok_inv in Hb as ([] & w0 & He & Hb).
  apply bind_Ok_inv in Hb as ([] & wb & Hp & Hs).
  injection Hp as <-. change (take 7 stages) with stages in Hs.
  apply stages_Ok_inv in Hs as [-> _].
  destruct (ensure_output_dir_Ok_inv w w0 He) as (Hd & _ & _ & _ & Hc0 & _).
  match type of Hl with
  | main_listing _ ?wx = _ =>
      destruct (main_listing_console wx Hd) as (w3 & Hl' & Hfs & Hc)
  end.
  rewrite Hl in Hl'. injection Hl' as <-.
  exists (sorted (output_entries (fs w'))).
  split; [|split; [apply sorted_Sorted|split; [apply sorted_Permutation|]]].
  - rewrite Hc, Hfs. cbn [after_stages console]. rewrite Hc0.
    unfold banner. rewrite <- !app_assoc. reflexivity.
  - intros i name F Hi.
    pose proof artifact_entries as Hent. rewrite Forall_forall in Hent.
    destruct (Hent (name, F) (list_elem_of_lookup_2 _ _ _ Hi)) as [Epng Epdf].
    cbn [fst] in Epng, Epdf.
    assert (Hin : forall p d, (p, d) ∈ artifacts_of module_globals w0 name F ->
                    p ∈ elements (fs_dirs (fs w') ∪ dom (fs_files (fs w')))).
    { intros p d Hpd. apply elem_of_elements, elem_of_union. right.
      apply elem_of_dom. exists d. rewrite Hfs.
      cbn [after_stages fs fs_files].
      apply write_all_lookup_in;
        [rewrite stage_artifacts_paths; exact stage_paths_NoDup|].
      exact (stage_artifact_in _ _ _ i name F _ Hi Hpd). }
    split; rewrite sorted_Permutation; unfold output_entries;
      apply list_elem_of_omap.
    + exists (png_path module_globals name). split; [|exact Epng].
      eapply Hin. apply list_elem_of_here.
    + exists (pdf_path module_globals name). split; [|exact Epdf].
      eapply Hin. apply list_elem_of_further, list_elem_of_here.
Qed.

Lemma main_lists_every_artifact_witness :
  main module_globals rerun_world
  = Ok tt (world_of (main module_globals rerun_world))
  /\ exists names,
       Sorted str_le names
       /\ names ≡ₚ output_entries (fs (world_of (main module_globals rerun_world)))
       /\ "fig7_summary_table.png" ∈ names.
Proof.
  assert (H1 : main module_globals rerun_world
               = Ok tt (world_of (main module_globals rerun_world)))
    by (vm_compute; reflexivity).
  split; [exact H1|].
  destruct (main_lists_every_artifact rerun_world _ H1) as (names & _ & Hs & Hp & Hall).
  exists names. split; [exact Hs|]. split; [exact Hp|].
  exact (proj1 (Hall 6%nat "fig7_summary_table" _ eq_refl)).
Defined.
